(** * GraphQL introspection service: fetch/cache pipeline and result formatter

    A shallow embedding of [src/graphql-service.ts]
    (class [GraphQLIntrospectionService]).  The private cache is a
    [Map<string, CacheEntry>], modelled as a [gmap]; [Date.now()], the
    network and the console are made explicit in a [World] that every call
    of [fetchIntrospection] threads through. *)

From Stdlib Require Import ZArith String Ascii List Bool Lia.
From stdpp Require Import base decidable option gmap strings list pretty.
Import ListNotations.
Local Open Scope string_scope.
Local Open Scope Z_scope.

(** ** JavaScript values that the code inspects *)

(** A value produced by [response.json()]. *)
#[local] Unset Elimination Schemes.
Inductive JSON : Type :=
| JNull
| JBool (b : bool)
| JNumber (n : Z)
| JString (s : string)
| JArray (items : list JSON)
| JObject (members : list (string * JSON)).
#[local] Set Elimination Schemes.

(** What a [throw] carries: an [Error] instance with its message, or any
    other value (the [catch] in [fetchIntrospection] tells them apart with
    [instanceof Error]). *)
Inductive Thrown : Type :=
| JsError (message : string)
| NonError.

(** The one-character string holding a double quote. *)
Definition dquote : string := String (ascii_of_N 34) EmptyString.

(** Truthiness of an optional string field ([undefined] is [None]):
    the test behind [auth.username || ...], [if (auth.bearer_token)],
    [if (options.kind)] and [if (options.search)]. *)
Definition present (o : option string) : bool :=
  match o with
  | Some s => negb (String.eqb s EmptyString)
  | None => false
  end.

(** The string inside a truthy optional string. *)
Definition given (o : option string) : option string :=
  match o with
  | Some s => if String.eqb s EmptyString then None else Some s
  | None => None
  end.

(** [a || b] for an optional string [a] and a string [b]. *)
Definition js_or (a : option string) (b : string) : string :=
  match a with
  | Some s => if String.eqb s EmptyString then b else s
  | None => b
  end.

(** Truthiness of a property read off a parsed body ([None] is
    [undefined]).  Arrays and objects are always truthy, also when empty. *)
Definition truthy (v : option JSON) : bool :=
  match v with
  | None => false
  | Some JNull => false
  | Some (JBool b) => b
  | Some (JNumber n) => negb (n =? 0)
  | Some (JString s) => negb (String.eqb s EmptyString)
  | Some (JArray _) => true
  | Some (JObject _) => true
  end.

(** Own property lookup in the member list of a parsed object; a repeated
    key keeps its last value, as [JSON.parse] does. *)
Fixpoint lookup_member (k : string) (ms : list (string * JSON)) : option JSON :=
  match ms with
  | [] => None
  | (k', v) :: rest =>
      match lookup_member k rest with
      | Some v' => Some v'
      | None => if String.eqb k k' then Some v else None
      end
  end.

(** [result.<k>] for the keys the code reads ([errors], [data]): a
    [TypeError] on [null], [undefined] on primitives and arrays. *)
Definition get_property (result : JSON) (k : string) : Thrown + option JSON :=
  match result with
  | JNull =>
      inl (JsError ("Cannot read properties of null (reading '" ++ k ++ "')"))
  | JObject ms => inr (lookup_member k ms)
  | _ => inr None
  end.

(** ** Platform functions

    [JSON.stringify], [Buffer.from(s).toString('base64')],
    [String.prototype.toLowerCase] and graphql-js's [getIntrospectionQuery]
    belong to the runtime and its libraries.  The service is verified for
    every implementation of them. *)
Class Platform : Type := {
  JSON_stringify : JSON -> string;
  base64 : string -> string;
  toLowerCase : string -> string;
  getIntrospectionQuery : string;
}.

(** ** Options and cache entries (the interfaces at the top of the file) *)

Record AuthOptions : Type := {
  username : option string;
  password : option string;
  bearer_token : option string;
}.

Record CacheEntry : Type := {
  data : option JSON;
  timestamp : Z;
}.

(** The fields of [GraphQLIntrospectionService]. *)
Record Service : Type := {
  cache : gmap string CacheEntry;
  CACHE_DURATION : Z;
  DEFAULT_ENDPOINT : string;
}.

(** Field initialisers of the class, run by [new GraphQLIntrospectionService()]
    with [process.env] as it is at that moment. *)
Definition new_Service (env : gmap string string) : Service :=
  {| cache := ∅;
     CACHE_DURATION := 5 * 60 * 1000;
     DEFAULT_ENDPOINT := js_or (env !! "BASE_URL") "http://localhost:5555/graphql" |}.

(** ** The network as [fetchIntrospection] sees it *)

Record Request : Type := {
  url : string;
  method : string;
  headers : gmap string string;
  body : string;
}.

Record Response : Type := {
  status : Z;
  statusText : string;
  json : Thrown + JSON;   (* [await response.json()]: rejects, or the parsed body *)
}.

(** node-fetch's [response.ok]. *)
Definition ok (r : Response) : bool :=
  (200 <=? status r) && (status r <? 300).

Inductive FetchOutcome : Type :=
| Rejected (t : Thrown)       (* DNS, connection refused, timeout, ... *)
| Resolved (r : Response).

(** What one [await fetch(...)] yields, and what [Date.now()] reads once the
    awaits are over. *)
Record Reply : Type := {
  outcome : FetchOutcome;
  arrival : Z;
}.

Record World : Type := {
  svc : Service;
  now : Z;                    (* the next [Date.now()] *)
  sent : list Request;        (* requests put on the network, latest first *)
  console : list string;      (* lines written by [console.info], latest first *)
}.

Definition at_time (t : Z) (w : World) : World :=
  {| svc := svc w; now := t; sent := sent w; console := console w |}.

Definition console_info (line : string) (w : World) : World :=
  {| svc := svc w; now := now w; sent := sent w; console := line :: console w |}.

(** ** [fetchIntrospection] *)

(** The three places inside the [try] block where control leaves for the
    [catch]: the two explicit [throw]s and anything thrown by [fetch],
    [response.json()] or a property read. *)
Inductive Failure : Type :=
| TransportError (st : Z) (text : string)
| GraphQLError (errors : JSON)
| FetchFailure (t : Thrown).

(** A call either returns a document or throws [new Error(message)]; [site]
    records where in the [try] block the failure arose. *)
Inductive FetchResult : Type :=
| Fetched (d : option JSON)
| Failed (site : Failure) (message : string).

Section Fetcher.
Context `{Platform}.

Definition authKey (auth : AuthOptions) : string :=
  js_or (username auth) (js_or (bearer_token auth) "no-auth").

Definition getCacheKey (endpoint : string) (auth : AuthOptions) : string :=
  endpoint ++ ":" ++ authKey auth.

Definition isValidCache (s : Service) (date_now : Z) (entry : CacheEntry) : bool :=
  date_now - timestamp entry <? CACHE_DURATION s.

(** Lines 61-71: the [headers] object. *)
Definition buildHeaders (auth : AuthOptions) : gmap string string :=
  let headers : gmap string string := {[ "Content-Type" := "application/json" ]} in
  match given (bearer_token auth) with
  | Some token => <[ "Authorization" := "Bearer " ++ token ]> headers
  | None =>
      match given (username auth), given (password auth) with
      | Some user, Some pass =>
          let credentials := base64 (user ++ ":" ++ pass) in
          <[ "Authorization" := "Basic " ++ credentials ]> headers
      | _, _ => headers
      end
  end.

Definition buildRequest (endpoint : string) (auth : AuthOptions) : Request :=
  {| url := endpoint;
     method := "POST";
     headers := buildHeaders auth;
     body := JSON_stringify (JObject [("query", JString getIntrospectionQuery)]) |}.

(** The value thrown at each site. *)
Definition thrown_at (f : Failure) : Thrown :=
  match f with
  | TransportError st text => JsError ("HTTP " ++ pretty st ++ ": " ++ text)
  | GraphQLError errors => JsError ("GraphQL errors: " ++ JSON_stringify errors)
  | FetchFailure t => t
  end.

(** The [catch] block. *)
Definition rewrap (t : Thrown) : string :=
  match t with
  | JsError message => "Failed to fetch GraphQL schema: " ++ message
  | NonError => "Failed to fetch GraphQL schema: Unknown error"
  end.

(** Lines 74-98, after the request has been answered: either a failure
    site or the [data] payload to cache and return. *)
Definition readReply (o : FetchOutcome) : Failure + option JSON :=
  match o with
  | Rejected t => inl (FetchFailure t)
  | Resolved response =>
      if negb (ok response) then
        inl (TransportError (status response) (statusText response))
      else
        match json response with
        | inl t => inl (FetchFailure t)
        | inr result =>
            match get_property result "errors" with
            | inl t => inl (FetchFailure t)
            | inr errors =>
                if truthy errors then inl (GraphQLError (default JNull errors))
                else
                  match get_property result "data" with
                  | inl t => inl (FetchFailure t)
                  | inr d => inr d
                  end
            end
        end
  end.

Definition cache_set (k : string) (e : CacheEntry) (s : Service) : Service :=
  {| cache := <[ k := e ]> (cache s);
     CACHE_DURATION := CACHE_DURATION s;
     DEFAULT_ENDPOINT := DEFAULT_ENDPOINT s |}.

(** Lines 61-104: the path taken when the cache has no valid entry. *)
Definition requestIntrospection (net : Request -> Reply) (endpoint : string)
    (auth : AuthOptions) (cacheKey : string) (w : World) : FetchResult * World :=
  let request := buildRequest endpoint auth in
  let reply := net request in
  match readReply (outcome reply) with
  | inl site =>
      (Failed site (rewrap (thrown_at site)),
       {| svc := svc w; now := arrival reply;
          sent := request :: sent w; console := console w |})
  | inr d =>
      (Fetched d,
       {| svc := cache_set cacheKey {| data := d; timestamp := arrival reply |} (svc w);
          now := arrival reply;
          sent := request :: sent w; console := console w |})
  end.

Definition fetchIntrospection (net : Request -> Reply) (endpoint : string)
    (auth : AuthOptions) (w0 : World) : FetchResult * World :=
  let w := console_info ("🚀🚀🚀 ====== endpoint: " ++ endpoint) w0 in
  let cacheKey := getCacheKey endpoint auth in
  match cache (svc w) !! cacheKey with
  | Some cached =>
      if isValidCache (svc w) (now w) cached then (Fetched (data cached), w)
      else requestIntrospection net endpoint auth cacheKey w
  | None => requestIntrospection net endpoint auth cacheKey w
  end.

(** The condition under which [fetchIntrospection] goes to the network:
    the negation of [cached && this.isValidCache(cached)]. *)
Definition misses (endpoint : string) (auth : AuthOptions) (w : World) : bool :=
  match cache (svc w) !! getCacheKey endpoint auth with
  | Some cached => negb (isValidCache (svc w) (now w) cached)
  | None => true
  end.

End Fetcher.

(** ** The introspection document

    The shape the introspection query asks for.  [None] stands for [null] or
    [undefined]: the code only ever tests these fields for truthiness. *)

#[local] Unset Elimination Schemes.
Inductive TypeRef : Type := mkTypeRef {
  tr_kind : string;
  tr_name : option string;
  tr_description : option string;
  ofType : option TypeRef;
}.
#[local] Set Elimination Schemes.

Record InputValue : Type := {
  iv_name : string;
  iv_description : option string;
  iv_type : option TypeRef;
  defaultValue : option string;
}.

Record Field : Type := {
  f_name : string;
  f_description : option string;
  args : option (list InputValue);
  f_type : option TypeRef;
  isDeprecated : bool;
  deprecationReason : option string;
}.

Record EnumValue : Type := {
  ev_name : string;
  ev_description : option string;
  ev_isDeprecated : bool;
  ev_deprecationReason : option string;
}.

Record FullType : Type := {
  t_kind : string;
  t_name : string;
  t_description : option string;
  fields : option (list Field);
  inputFields : option (list InputValue);
  interfaces : option (list TypeRef);
  enumValues : option (list EnumValue);
  possibleTypes : option (list TypeRef);
}.

Record RootRef : Type := { root_name : string }.

Record Schema : Type := {
  queryType : option RootRef;
  mutationType : option RootRef;
  subscriptionType : option RootRef;
  types : list FullType;
}.

Record IntrospectionData : Type := { __schema : Schema }.

(** ** Formatted output *)

(** The three object shapes [formatType] builds:
    [{kind: 'NON_NULL', of_type, is_required: true}],
    [{kind: 'LIST', of_type, is_list: true}] and
    [{kind, name, description}]; [None] in [of_type] is [null]. *)
#[local] Unset Elimination Schemes.
Inductive FormattedType : Type :=
| NON_NULL (of_type : option FormattedType)
| LIST (of_type : option FormattedType)
| Named (kind : string) (name description : option string).
#[local] Set Elimination Schemes.

(** [{name, description, type, default_value}], built by [formatArguments]
    and [formatInputFields]. *)
Record FormattedInput : Type := {
  fi_name : string;
  fi_description : option string;
  fi_type : option FormattedType;
  default_value : option string;
}.

Record FormattedTypeField : Type := {
  tf_name : string;
  tf_description : option string;
  tf_type : option FormattedType;
  tf_deprecated : bool;
  tf_deprecation_reason : option string;
}.

Record FormattedEnumValue : Type := {
  fe_name : string;
  fe_description : option string;
  fe_deprecated : bool;
  fe_deprecation_reason : option string;
}.

(** An entry of [queries] or [mutations]: the [base] object, and the
    [arguments] and [return_type] keys when [options.detailed] holds. *)
Record OperationItem : Type := {
  op_name : string;
  op_description : option string;
  op_deprecated : bool;
  op_deprecation_reason : option string;
  op_detail : option (list FormattedInput * option FormattedType);
}.

Record TypeDetail : Type := {
  td_fields : option (list FormattedTypeField);
  enum_values : option (list FormattedEnumValue);
  input_fields : option (list FormattedInput);
  td_interfaces : option (list (option string));
  possible_types : option (list (option string));
}.

Record TypeItem : Type := {
  ti_name : string;
  ti_kind : string;
  ti_description : option string;
  ti_detail : option TypeDetail;
}.

Record QueriesResult : Type := {
  q_success : bool;
  q_endpoint : string;
  q_search_term : option string;
  queries : list OperationItem;
  q_total : nat;
}.

Record MutationsResult : Type := {
  m_success : bool;
  m_endpoint : string;
  m_search_term : option string;
  mutations : list OperationItem;
  m_total : nat;
}.

Record TypesResult : Type := {
  ts_success : bool;
  ts_endpoint : string;
  ts_search_term : option string;
  kind_filter : option string;
  ts_types : list TypeItem;
  ts_total : nat;
}.

Record FieldDetail : Type := {
  fd_name : string;
  fd_description : option string;
  fd_arguments : list FormattedInput;
  fd_return_type : option FormattedType;
  fd_deprecated : bool;
  fd_deprecation_reason : option string;
}.

Record FieldDetailsResult : Type := {
  fd_success : bool;
  fd_endpoint : string;
  fd_operation_type : string;
  field : FieldDetail;
}.

(** A method body either returns or throws [new Error(message)]. *)
Inductive Completion (A : Type) : Type :=
| Return (a : A)
| Throw (message : string).
Arguments Return {A} a.
Arguments Throw {A} message.

(** ** Options of the public methods *)

Record FilterOptions : Type := {
  fo_endpoint : option string;
  fo_search : option string;
  fo_detailed : bool;
}.

Record TypeFilterOptions : Type := {
  to_endpoint : option string;
  to_search : option string;
  to_detailed : bool;
  to_kind : option string;
}.

Record FieldDetailsOptions : Type := {
  fdo_endpoint : option string;
  field_name : string;
  operation_type : option string;
}.

(** [s.startsWith(p)] and [s.includes(p)]. *)
Definition startsWith (s p : string) : bool := String.prefix p s.

Fixpoint includes (s p : string) : bool :=
  String.prefix p s ||
  match s with
  | EmptyString => false
  | String _ rest => includes rest p
  end.

(** [options.endpoint ?? this.DEFAULT_ENDPOINT] *)
Definition resolveEndpoint (s : Service) (endpoint : option string) : string :=
  default (DEFAULT_ENDPOINT s) endpoint.

(** ** The formatter

    Every public method starts with
    [const introspectionData = await this.fetchIntrospection(endpoint, options)];
    the definitions below are the method bodies after that line, with the
    awaited document as an argument. *)

Section Formatter.
Context `{Platform}.

(** [formatType] on a type reference that is not [null]: the three
    [return]s of lines 434-454. *)
Fixpoint formatTypeObject (type : TypeRef) : FormattedType :=
  match type with
  | mkTypeRef kind name description ofType =>
      let inner :=
        match ofType with
        | None => None
        | Some t => Some (formatTypeObject t)
        end in
      if String.eqb kind "NON_NULL" then NON_NULL inner
      else if String.eqb kind "LIST" then LIST inner
      else Named kind name description
  end.

(** [if (!type) return null;] and then the cases above. *)
Definition formatType (type : option TypeRef) : option FormattedType :=
  match type with
  | None => None
  | Some t => Some (formatTypeObject t)
  end.

Definition formatArguments (args : option (list InputValue)) : list FormattedInput :=
  match args with
  | None => []
  | Some l =>
      map (fun arg => {| fi_name := iv_name arg;
                         fi_description := iv_description arg;
                         fi_type := formatType (iv_type arg);
                         default_value := defaultValue arg |}) l
  end.

Definition formatTypeFields (fs : list Field) : list FormattedTypeField :=
  map (fun f => {| tf_name := f_name f;
                   tf_description := f_description f;
                   tf_type := formatType (f_type f);
                   tf_deprecated := isDeprecated f;
                   tf_deprecation_reason := deprecationReason f |}) fs.

Definition formatEnumValues (values : list EnumValue) : list FormattedEnumValue :=
  map (fun v => {| fe_name := ev_name v;
                   fe_description := ev_description v;
                   fe_deprecated := ev_isDeprecated v;
                   fe_deprecation_reason := ev_deprecationReason v |}) values.

Definition formatInputFields (fs : list InputValue) : list FormattedInput :=
  map (fun f => {| fi_name := iv_name f;
                   fi_description := iv_description f;
                   fi_type := formatType (iv_type f);
                   default_value := defaultValue f |}) fs.

(** The callback of the search filter (lines 164-167, 230-233, 280-283). *)
Definition matchesSearch (searchLower name : string) (description : option string) : bool :=
  includes (toLowerCase name) searchLower ||
  match given description with
  | Some text => includes (toLowerCase text) searchLower
  | None => false
  end.

(** The callback of [queries.map] and [mutations.map]. *)
Definition formatOperation (detailed : bool) (f : Field) : OperationItem :=
  {| op_name := f_name f;
     op_description := f_description f;
     op_deprecated := isDeprecated f;
     op_deprecation_reason := deprecationReason f;
     op_detail :=
       if detailed then Some (formatArguments (args f), formatType (f_type f))
       else None |}.

Definition findType (name : string) (ts : list FullType) : option FullType :=
  find (fun t => String.eqb (t_name t) name) ts.

Definition filterQueries (s : Service) (options : FilterOptions)
    (introspectionData : IntrospectionData) : QueriesResult :=
  let endpoint := resolveEndpoint s (fo_endpoint options) in
  let empty := {| q_success := true; q_endpoint := endpoint;
                  q_search_term := None; queries := []; q_total := 0 |} in
  match queryType (__schema introspectionData) with
  | None => empty
  | Some queryType =>
      match findType (root_name queryType) (types (__schema introspectionData)) with
      | None => empty
      | Some queryTypeData =>
          match fields queryTypeData with
          | None => empty
          | Some all =>
              let queries :=
                match given (fo_search options) with
                | Some search =>
                    let searchLower := toLowerCase search in
                    List.filter
                      (fun f => matchesSearch searchLower (f_name f) (f_description f)) all
                | None => all
                end in
              let formattedQueries := map (formatOperation (fo_detailed options)) queries in
              {| q_success := true; q_endpoint := endpoint;
                 q_search_term := fo_search options;
                 queries := formattedQueries;
                 q_total := length formattedQueries |}
          end
      end
  end.

Definition filterMutations (s : Service) (options : FilterOptions)
    (introspectionData : IntrospectionData) : MutationsResult :=
  let endpoint := resolveEndpoint s (fo_endpoint options) in
  let empty := {| m_success := true; m_endpoint := endpoint;
                  m_search_term := None; mutations := []; m_total := 0 |} in
  match mutationType (__schema introspectionData) with
  | None => empty
  | Some mutationType =>
      match findType (root_name mutationType) (types (__schema introspectionData)) with
      | None => empty
      | Some mutationTypeData =>
          match fields mutationTypeData with
          | None => empty
          | Some all =>
              let mutations :=
                match given (fo_search options) with
                | Some search =>
                    let searchLower := toLowerCase search in
                    List.filter
                      (fun f => matchesSearch searchLower (f_name f) (f_description f)) all
                | None => all
                end in
              let formattedMutations := map (formatOperation (fo_detailed options)) mutations in
              {| m_success := true; m_endpoint := endpoint;
                 m_search_term := fo_search options;
                 mutations := formattedMutations;
                 m_total := length formattedMutations |}
          end
      end
  end.

(** The callback of [types.map] in [filterTypes]. *)
Definition formatTypeItem (detailed : bool) (t : FullType) : TypeItem :=
  {| ti_name := t_name t;
     ti_kind := t_kind t;
     ti_description := t_description t;
     ti_detail :=
       if detailed then
         Some {| td_fields := formatTypeFields <$> fields t;
                 enum_values := formatEnumValues <$> enumValues t;
                 input_fields := formatInputFields <$> inputFields t;
                 td_interfaces := map tr_name <$> interfaces t;
                 possible_types := map tr_name <$> possibleTypes t |}
       else None |}.

Definition filterTypes (s : Service) (options : TypeFilterOptions)
    (introspectionData : IntrospectionData) : TypesResult :=
  let endpoint := resolveEndpoint s (to_endpoint options) in
  let types0 :=
    List.filter (fun t => negb (startsWith (t_name t) "__"))
           (types (__schema introspectionData)) in
  let types1 :=
    match given (to_kind options) with
    | Some kind => List.filter (fun t => String.eqb (t_kind t) kind) types0
    | None => types0
    end in
  let types2 :=
    match given (to_search options) with
    | Some search =>
        let searchLower := toLowerCase search in
        List.filter (fun t => matchesSearch searchLower (t_name t) (t_description t)) types1
    | None => types1
    end in
  let formattedTypes := map (formatTypeItem (to_detailed options)) types2 in
  {| ts_success := true; ts_endpoint := endpoint;
     ts_search_term := to_search options;
     kind_filter := to_kind options;
     ts_types := formattedTypes;
     ts_total := length formattedTypes |}.

Definition getFieldDetails (s : Service) (options : FieldDetailsOptions)
    (introspectionData : IntrospectionData) : Completion FieldDetailsResult :=
  let endpoint := resolveEndpoint s (fdo_endpoint options) in
  let operationType := js_or (operation_type options) "query" in
  let rootType :=
    if String.eqb operationType "mutation"
    then mutationType (__schema introspectionData)
    else queryType (__schema introspectionData) in
  match rootType with
  | None => Throw ("No " ++ operationType ++ " type available")
  | Some rootType =>
      match fields <$> findType (root_name rootType) (types (__schema introspectionData)) with
      | None | Some None => Throw (operationType ++ " type has no fields")
      | Some (Some fs) =>
          match find (fun f => String.eqb (f_name f) (field_name options)) fs with
          | None =>
              Throw ("Field " ++ dquote ++ field_name options ++ dquote
                     ++ " not found in " ++ operationType ++ " type")
          | Some f =>
              Return {| fd_success := true; fd_endpoint := endpoint;
                        fd_operation_type := operationType;
                        field := {| fd_name := f_name f;
                                    fd_description := f_description f;
                                    fd_arguments := formatArguments (args f);
                                    fd_return_type := formatType (f_type f);
                                    fd_deprecated := isDeprecated f;
                                    fd_deprecation_reason := deprecationReason f |} |}
          end
      end
  end.

End Formatter.

(** ** A reference platform

    Implementations of the platform functions on ASCII text, used to run
    the service on concrete inputs: compact [JSON.stringify], RFC 4648
    base64 and ASCII lower-casing. *)
Module Node.

Definition lower (c : ascii) : ascii :=
  let n := N_of_ascii c in
  if ((65 <=? n) && (n <=? 90))%N then ascii_of_N (n + 32) else c.

Fixpoint toLowerCase (s : string) : string :=
  match s with
  | EmptyString => EmptyString
  | String c rest => String (lower c) (toLowerCase rest)
  end.

Definition alphabet : string :=
  "ABCDEFGHIJKLMNOPQRSTUVWXYZabcdefghijklmnopqrstuvwxyz0123456789+/".

Definition digit64 (n : N) : string :=
  match String.get (N.to_nat n) alphabet with
  | Some c => String c EmptyString
  | None => "="
  end.

Fixpoint encode (bytes : list N) : string :=
  (match bytes with
   | [] => EmptyString
   | [a] =>
       digit64 (a / 4) ++ digit64 (a mod 4 * 16) ++ "=="
   | [a; b] =>
       digit64 (a / 4) ++ digit64 (a mod 4 * 16 + b / 16)
       ++ digit64 (b mod 16 * 4) ++ "="
   | a :: b :: c :: rest =>
       digit64 (a / 4) ++ digit64 (a mod 4 * 16 + b / 16)
       ++ digit64 (b mod 16 * 4 + c / 64) ++ digit64 (c mod 64)
       ++ encode rest
   end)%N.

Definition base64 (s : string) : string :=
  encode (map N_of_ascii (list_ascii_of_string s)).

Definition hex (n : N) : string :=
  match String.get (N.to_nat n) "0123456789abcdef" with
  | Some c => String c EmptyString
  | None => EmptyString
  end.

Definition escape (c : ascii) : string :=
  let n := N_of_ascii c in
  let backslash := String (ascii_of_N 92) EmptyString in
  if (n =? 34)%N then backslash ++ dquote
  else if (n =? 92)%N then backslash ++ backslash
  else if (n =? 8)%N then backslash ++ "b"
  else if (n =? 9)%N then backslash ++ "t"
  else if (n =? 10)%N then backslash ++ "n"
  else if (n =? 12)%N then backslash ++ "f"
  else if (n =? 13)%N then backslash ++ "r"
  else if (n <? 32)%N then backslash ++ "u00" ++ hex (n / 16) ++ hex (n mod 16)
  else String c EmptyString.

Fixpoint escaped (s : string) : string :=
  match s with
  | EmptyString => EmptyString
  | String c rest => escape c ++ escaped rest
  end.

Definition quote (s : string) : string := dquote ++ escaped s ++ dquote.

Fixpoint join (parts : list string) : string :=
  match parts with
  | [] => EmptyString
  | [x] => x
  | x :: rest => x ++ "," ++ join rest
  end.

Fixpoint stringify (v : JSON) : string :=
  match v with
  | JNull => "null"
  | JBool true => "true"
  | JBool false => "false"
  | JNumber n => pretty n
  | JString s => quote s
  | JArray items => "[" ++ join (map stringify items) ++ "]"
  | JObject members =>
      "{" ++ join (map (fun m => quote (fst m) ++ ":" ++ stringify (snd m)) members) ++ "}"
  end.

#[global] Instance platform : Platform :=
  Build_Platform stringify base64 toLowerCase
    "query IntrospectionQuery { __schema { queryType { name } } }".

End Node.

(** ** Vocabulary of the properties *)

Section Vocabulary.
Context `{Platform}.

(** [text] contains [search] irrespective of case. *)
Definition contains_ci (text search : string) : bool :=
  includes (toLowerCase text) (toLowerCase search).

(** The three conditions of [filter_types] joined by "and": the name is not
    an introspection-internal one, the kind equals the requested kind when
    one is given, and the name or the description contains the search
    string when one is given. *)
Definition selected (options : TypeFilterOptions) (t : FullType) : bool :=
  negb (startsWith (t_name t) "__")
  && match given (to_kind options) with
     | Some kind => String.eqb (t_kind t) kind
     | None => true
     end
  && match given (to_search options) with
     | Some search =>
         contains_ci (t_name t) search ||
         match given (t_description t) with
         | Some text => contains_ci text search
         | None => false
         end
     | None => true
     end.

End Vocabulary.

(** The field list of a root operation type, when the schema names that
    root, declares the named type and the type has fields. *)
Definition rootFields (root : option RootRef) (d : IntrospectionData)
    : option (list Field) :=
  match root with
  | None => None
  | Some r =>
      match findType (root_name r) (types (__schema d)) with
      | None => None
      | Some t => fields t
      end
  end.

(** [options.operation_type || 'query'] and the root it selects. *)
Definition operationTypeOf (options : FieldDetailsOptions) : string :=
  js_or (operation_type options) "query".

Definition rootTypeOf (options : FieldDetailsOptions) (d : IntrospectionData)
    : option RootRef :=
  if String.eqb (operationTypeOf options) "mutation"
  then mutationType (__schema d) else queryType (__schema d).

(** The three not-found messages of [getFieldDetails]. *)
Definition no_root_message (op : string) : string :=
  "No " ++ op ++ " type available".

Definition no_fields_message (op : string) : string :=
  op ++ " type has no fields".

Definition field_not_found_message (name op : string) : string :=
  "Field " ++ dquote ++ name ++ dquote ++ " not found in " ++ op ++ " type".

(** The kinds met on the way down a type reference, following [ofType]
    through the two wrapper kinds only, and the kinds met on the way down a
    formatted reference. *)
Fixpoint nesting (t : TypeRef) : list string :=
  match t with
  | mkTypeRef kind _ _ inner =>
      kind ::
      (if String.eqb kind "NON_NULL" || String.eqb kind "LIST" then
         match inner with
         | Some i => nesting i
         | None => []
         end
       else [])
  end.

Fixpoint formatted_nesting (f : FormattedType) : list string :=
  match f with
  | NON_NULL inner =>
      "NON_NULL" :: match inner with Some i => formatted_nesting i | None => [] end
  | LIST inner =>
      "LIST" :: match inner with Some i => formatted_nesting i | None => [] end
  | Named kind _ _ => [kind]
  end.

Fixpoint last_char (s : string) : option ascii :=
  match s with
  | EmptyString => None
  | String c rest =>
      match last_char rest with
      | Some l => Some l
      | None => Some c
      end
  end.

(** ** Concrete inputs used by the examples *)
Module Samples.

Definition endpoint : string := "http://localhost:4000/graphql".

Definition alice : AuthOptions :=
  {| username := Some "alice"; password := Some "secret"; bearer_token := None |}.

(** Same user name, another password. *)
Definition alice' : AuthOptions :=
  {| username := Some "alice"; password := Some "hunter2"; bearer_token := None |}.

Definition all_credentials : AuthOptions :=
  {| username := Some "alice"; password := Some "secret"; bearer_token := Some "tok" |}.

Definition anonymous : AuthOptions :=
  {| username := None; password := None; bearer_token := None |}.

Definition document : JSON :=
  JObject [("__schema", JObject [("queryType", JObject [("name", JString "Query")])])].

Definition good_body : JSON := JObject [("data", document)].

(** A body whose [errors] member is the empty array. *)
Definition empty_errors_body : JSON :=
  JObject [("errors", JArray []); ("data", document)].

Definition errors_body : JSON :=
  JObject [("errors", JArray [JObject [("message", JString "introspection is disabled")]])].

Definition http (st : Z) (text : string) (b : JSON) : Response :=
  {| status := st; statusText := text; json := inr b |}.

(** A server that answers every request with [r], the answer being
    complete at time [t]. *)
Definition answering (r : Response) (t : Z) : Request -> Reply :=
  fun _ => {| outcome := Resolved r; arrival := t |}.

Definition unreachable (t : Z) : Request -> Reply :=
  fun _ => {| outcome := Rejected (JsError "connect ECONNREFUSED 127.0.0.1:4000");
              arrival := t |}.

(** A fresh process at time 1000 with an empty environment. *)
Definition start : World :=
  {| svc := new_Service ∅; now := 1000; sent := []; console := [] |}.

(** A fresh process at time 1000 started under [CACHE_DURATION_MS=600000],
    the override the README documents. *)
Definition start_configured : World :=
  {| svc := new_Service {[ "CACHE_DURATION_MS" := "600000" ]};
     now := 1000; sent := []; console := [] |}.

(** The world after a first, successful call by [alice] at time 1000,
    answered at time 2000. *)
Definition after_first : World :=
  snd (fetchIntrospection (answering (http 200 "OK" good_body) 2000) endpoint alice start).

(** Shorthand for the type references used below. *)
Definition named (kind name : string) : TypeRef :=
  mkTypeRef kind (Some name) None None.

Definition wrap (kind : string) (inner : TypeRef) : TypeRef :=
  mkTypeRef kind None None (Some inner).

(** [[Int]!] *)
Definition non_null_list_of_int : TypeRef :=
  wrap "NON_NULL" (wrap "LIST" (named "SCALAR" "Int")).

Definition plain_type (kind name : string) (description : option string) : FullType :=
  {| t_kind := kind; t_name := name; t_description := description;
     fields := None; inputFields := None; interfaces := None;
     enumValues := None; possibleTypes := None |}.

Definition user_field : Field :=
  {| f_name := "user"; f_description := Some "Look up one user";
     args := Some [ {| iv_name := "id"; iv_description := None;
                       iv_type := Some (wrap "NON_NULL" (named "SCALAR" "ID"));
                       defaultValue := None |} ];
     f_type := Some (named "OBJECT" "User");
     isDeprecated := false; deprecationReason := None |}.

Definition scores_field : Field :=
  {| f_name := "scores"; f_description := None; args := Some [];
     f_type := Some non_null_list_of_int;
     isDeprecated := false; deprecationReason := None |}.

Definition query_type : FullType :=
  {| t_kind := "OBJECT"; t_name := "Query"; t_description := None;
     fields := Some [user_field; scores_field];
     inputFields := None; interfaces := Some [];
     enumValues := None; possibleTypes := None |}.

Definition declared_types : list FullType :=
  [ query_type;
    plain_type "OBJECT" "User" (Some "A registered user");
    plain_type "SCALAR" "Int" (Some "Built-in integer");
    plain_type "SCALAR" "String" (Some "Built-in text");
    plain_type "SCALAR" "DateTime" (Some "An instant, printed as text");
    plain_type "ENUM" "Interval" None;
    plain_type "OBJECT" "__Schema" None ].

(** A schema with a query root and no mutation root. *)
Definition query_only : IntrospectionData :=
  {| __schema := {| queryType := Some {| root_name := "Query" |};
                    mutationType := None; subscriptionType := None;
                    types := declared_types |} |}.

(** A schema that names no root at all. *)
Definition rootless : IntrospectionData :=
  {| __schema := {| queryType := None; mutationType := None;
                    subscriptionType := None; types := declared_types |} |}.

Definition service : Service := new_Service ∅.

Definition no_filter : FilterOptions :=
  {| fo_endpoint := None; fo_search := None; fo_detailed := false |}.

Definition scalars_with_int : TypeFilterOptions :=
  {| to_endpoint := None; to_search := Some "INT"; to_detailed := false;
     to_kind := Some "SCALAR" |}.

Definition mutation_field (name : string) : FieldDetailsOptions :=
  {| fdo_endpoint := None; field_name := name; operation_type := Some "mutation" |}.

Definition query_field (name : string) : FieldDetailsOptions :=
  {| fdo_endpoint := None; field_name := name; operation_type := None |}.

End Samples.

(** ** The remaining methods of the service

    [getSchema] and [getTypeDetails] with their helpers [formatTypes] and
    [formatFields], again as the method bodies after the awaited fetch. *)

Record BaseOptions : Type := { bo_endpoint : option string }.

Record TypeDetailsOptions : Type := {
  tdo_endpoint : option string;
  type_name : string;
}.

(** The [schema] member of a [getSchema] result. *)
Record SchemaPayload : Type := {
  sdl : string;
  introspection : IntrospectionData;
  sp_types : list TypeItem;
  sp_queries : list FieldDetail;
  sp_mutations : list FieldDetail;
  subscriptions : list FieldDetail;
}.

Record SchemaResult : Type := {
  sr_success : bool;
  sr_endpoint : string;
  schema : SchemaPayload;
}.

(** [{name, kind}], the entries of [interfaces] and [possible_types] in a
    [getTypeDetails] result. *)
Record NamedKind : Type := {
  nk_name : option string;
  nk_kind : string;
}.

Record TypeDetails : Type := {
  tdt_name : string;
  tdt_kind : string;
  tdt_description : option string;
  tdt_fields : option (list FormattedTypeField);
  tdt_enum_values : option (list FormattedEnumValue);
  tdt_input_fields : option (list FormattedInput);
  tdt_interfaces : option (list NamedKind);
  tdt_possible_types : option (list NamedKind);
  tdt_of_type : option FormattedType;
}.

Record TypeDetailsResult : Type := {
  tdr_success : bool;
  tdr_endpoint : string;
  tdr_type : TypeDetails;
}.

Definition formatTypes (ts : list FullType) : list TypeItem :=
  map (fun t => {| ti_name := t_name t;
                   ti_kind := t_kind t;
                   ti_description := t_description t;
                   ti_detail := None |})
      (List.filter (fun t => negb (startsWith (t_name t) "__")) ts).

Definition formatFields (typeName : option string) (ts : list FullType)
    : list FieldDetail :=
  match given typeName with
  | None => []
  | Some typeName =>
      match findType typeName ts with
      | None => []
      | Some type =>
          match fields type with
          | None => []
          | Some fs =>
              map (fun f => {| fd_name := f_name f;
                               fd_description := f_description f;
                               fd_arguments := formatArguments (args f);
                               fd_return_type := formatType (f_type f);
                               fd_deprecated := isDeprecated f;
                               fd_deprecation_reason := deprecationReason f |}) fs
          end
      end
  end.

(** The message of the [catch] block of [getSchema]. *)
Definition buildFailure (t : Thrown) : string :=
  "Failed to build schema: " ++
  match t with
  | JsError message => message
  | NonError => "Unknown error"
  end.

(** [getSchema] after the fetch.  [printed] is what graphql-js makes of the
    document: [printSchema(buildClientSchema(introspectionData))] either
    throws or yields the SDL text. *)
Definition getSchema (s : Service) (options : BaseOptions)
    (printed : Thrown + string) (introspectionData : IntrospectionData)
    : Completion SchemaResult :=
  let endpoint := resolveEndpoint s (bo_endpoint options) in
  match printed with
  | inl error => Throw (buildFailure error)
  | inr text =>
      let sch := __schema introspectionData in
      Return {| sr_success := true;
                sr_endpoint := endpoint;
                schema :=
                  {| sdl := text;
                     introspection := introspectionData;
                     sp_types := formatTypes (types sch);
                     sp_queries := formatFields (root_name <$> queryType sch) (types sch);
                     sp_mutations := formatFields (root_name <$> mutationType sch) (types sch);
                     subscriptions :=
                       formatFields (root_name <$> subscriptionType sch) (types sch) |} |}
  end.

(** [getTypeDetails] after the fetch.  An entry of [__schema.types] has no
    [ofType] member (see [FullType]), so [type.ofType ? ... : null] is
    [null]. *)
Definition getTypeDetails (s : Service) (options : TypeDetailsOptions)
    (introspectionData : IntrospectionData) : Completion TypeDetailsResult :=
  let endpoint := resolveEndpoint s (tdo_endpoint options) in
  match findType (type_name options) (types (__schema introspectionData)) with
  | None => Throw ("Type " ++ dquote ++ type_name options ++ dquote ++ " not found")
  | Some type =>
      let named_kinds :=
        map (fun i => {| nk_name := tr_name i; nk_kind := tr_kind i |}) in
      Return {| tdr_success := true;
                tdr_endpoint := endpoint;
                tdr_type :=
                  {| tdt_name := t_name type;
                     tdt_kind := t_kind type;
                     tdt_description := t_description type;
                     tdt_fields := formatTypeFields <$> fields type;
                     tdt_enum_values := formatEnumValues <$> enumValues type;
                     tdt_input_fields := formatInputFields <$> inputFields type;
                     tdt_interfaces := named_kinds <$> interfaces type;
                     tdt_possible_types := named_kinds <$> possibleTypes type;
                     tdt_of_type := None |} |}
  end.

(** ** The tool boundary

    The two request handlers of the server script.  [ListTools] announces
    six tools; [CallTool] switches on the tool name, serialises what the
    service method returns and turns anything thrown into the failure
    envelope. *)

Inductive Method : Type :=
| GetSchema | FilterQueries | FilterMutations | FilterTypes
| GetTypeDetails | GetFieldDetails.

(** The [name] members of the [tools] array, in order. *)
Definition listedTools : list string :=
  [ "get_graphql_schema"; "filter_queries"; "filter_mutations";
    "filter_types"; "get_type_details"; "get_field_details" ].

(** The [case] labels of the [switch]. *)
Definition dispatch (name : string) : option Method :=
  if String.eqb name "get_graphql_schema" then Some GetSchema
  else if String.eqb name "filter_queries" then Some FilterQueries
  else if String.eqb name "filter_mutations" then Some FilterMutations
  else if String.eqb name "filter_types" then Some FilterTypes
  else if String.eqb name "get_type_details" then Some GetTypeDetails
  else if String.eqb name "get_field_details" then Some GetFieldDetails
  else None.

Record TextContent : Type := {
  content_type : string;
  text : string;
}.

(** The object serialised by the [catch] block. *)
Definition failureEnvelope (t : Thrown) : JSON :=
  JObject [ ("error", JString match t with
                              | JsError message => message
                              | NonError => "Unknown error"
                              end);
            ("success", JBool false) ].

Section ToolBoundary.

(** [JSON.stringify(value, null, 2)]. *)
Variable stringify_indented : JSON -> string.

(** What awaiting the chosen service method on the request's arguments
    gives: the returned object, as the JSON value that [JSON.stringify]
    sees, or the value thrown. *)
Variable run : Method -> Thrown + JSON.

(** The [content] array the [CallTool] handler answers with. *)
Definition callTool (name : string) : list TextContent :=
  let attempt :=
    match dispatch name with
    | Some m => run m
    | None => inl (JsError ("Unknown tool: " ++ name))
    end in
  match attempt with
  | inr result =>
      [ {| content_type := "text"; text := stringify_indented result |} ]
  | inl error =>
      [ {| content_type := "text";
           text := stringify_indented (failureEnvelope error) |} ]
  end.

End ToolBoundary.

(** ** Vocabulary of the further properties *)

(** The schema with query root and mutation root exchanged. *)
Definition swapRoots (d : IntrospectionData) : IntrospectionData :=
  {| __schema := {| queryType := mutationType (__schema d);
                    mutationType := queryType (__schema d);
                    subscriptionType := subscriptionType (__schema d);
                    types := types (__schema d) |} |}.

(** An entry of [queries] or [mutations] without its [arguments] and
    [return_type] keys. *)
Definition withoutDetail (i : OperationItem) : OperationItem :=
  {| op_name := op_name i;
     op_description := op_description i;
     op_deprecated := op_deprecated i;
     op_deprecation_reason := op_deprecation_reason i;
     op_detail := None |}.

Definition typeWithoutDetail (i : TypeItem) : TypeItem :=
  {| ti_name := ti_name i;
     ti_kind := ti_kind i;
     ti_description := ti_description i;
     ti_detail := None |}.

Definition withDetailed (b : bool) (options : FilterOptions) : FilterOptions :=
  {| fo_endpoint := fo_endpoint options;
     fo_search := fo_search options;
     fo_detailed := b |}.

Definition typesWithDetailed (b : bool) (options : TypeFilterOptions)
    : TypeFilterOptions :=
  {| to_endpoint := to_endpoint options;
     to_search := to_search options;
     to_detailed := b;
     to_kind := to_kind options |}.

(** The entry of a detailed [queries] list that carries what a
    [get_field_details] result carries. *)
Definition asOperationItem (f : FieldDetail) : OperationItem :=
  {| op_name := fd_name f;
     op_description := fd_description f;
     op_deprecated := fd_deprecated f;
     op_deprecation_reason := fd_deprecation_reason f;
     op_detail := Some (fd_arguments f, fd_return_type f) |}.

(** A type reference as introspection produces it: a wrapper has an inner
    type and neither name nor description, a named type has no inner
    type. *)
Fixpoint wellFormed (t : TypeRef) : bool :=
  match t with
  | mkTypeRef kind name description inner =>
      if String.eqb kind "NON_NULL" || String.eqb kind "LIST" then
        match name, description, inner with
        | None, None, Some i => wellFormed i
        | _, _, _ => false
        end
      else
        match inner with
        | None => true
        | Some _ => false
        end
  end.

(** The type reference a formatted reference stands for. *)
Fixpoint unformat (f : FormattedType) : TypeRef :=
  match f with
  | NON_NULL inner =>
      mkTypeRef "NON_NULL" None None
        match inner with Some i => Some (unformat i) | None => None end
  | LIST inner =>
      mkTypeRef "LIST" None None
        match inner with Some i => Some (unformat i) | None => None end
  | Named kind name description => mkTypeRef kind name description None
  end.

Section Vocabulary2.
Context `{Platform}.

(** The search condition of [filter_queries] and [filter_mutations]. *)
Definition fieldSelected (options : FilterOptions) (f : Field) : bool :=
  match given (fo_search options) with
  | Some search =>
      contains_ci (f_name f) search ||
      match given (f_description f) with
      | Some text => contains_ci text search
      | None => false
      end
  | None => true
  end.

End Vocabulary2.

(** Further inputs for the examples. *)
Module MoreSamples.

Definition token_alice : AuthOptions :=
  {| username := None; password := None; bearer_token := Some "alice" |}.

(** A 200 answer that has neither [errors] nor [data]. *)
Definition bare_body : JSON := JObject [("extensions", JObject [])].

Definition create_user_field : Field :=
  {| f_name := "createUser"; f_description := Some "Register a USER";
     args := None; f_type := Some (Samples.named "OBJECT" "User");
     isDeprecated := true; deprecationReason := Some "use signUp" |}.

Definition mutation_type : FullType :=
  {| t_kind := "OBJECT"; t_name := "Mutation"; t_description := None;
     fields := Some [create_user_field];
     inputFields := None; interfaces := Some [];
     enumValues := None; possibleTypes := None |}.

(** A schema with both roots. *)
Definition both_roots : IntrospectionData :=
  {| __schema := {| queryType := Some {| root_name := "Query" |};
                    mutationType := Some {| root_name := "Mutation" |};
                    subscriptionType := None;
                    types := mutation_type :: Samples.declared_types |} |}.

Definition searching (text : string) (detailed : bool) : FilterOptions :=
  {| fo_endpoint := None; fo_search := Some text; fo_detailed := detailed |}.

Definition all_types : TypeFilterOptions :=
  {| to_endpoint := None; to_search := None; to_detailed := false; to_kind := None |}.

Definition type_named (name : string) : TypeDetailsOptions :=
  {| tdo_endpoint := None; type_name := name |}.

Definition subscription_field (name : string) : FieldDetailsOptions :=
  {| fdo_endpoint := None; field_name := name; operation_type := Some "subscription" |}.

Definition defaults : BaseOptions := {| bo_endpoint := None |}.

(** What graphql-js prints, or fails to print. *)
Definition printed_ok : Thrown + string :=
  inr "type Query { user(id: ID!): User scores: [Int]! }".

(** A service method that always throws [Error(message)]. *)
Definition throwing (message : string) : Method -> Thrown + JSON :=
  fun _ => inl (JsError message).

End MoreSamples.

(** * Properties of the fetcher *)

Section FetcherProperties.
Context `{Platform}.

Lemma requestIntrospection_failed net endpoint auth k w site message w' :
  requestIntrospection net endpoint auth k w = (Failed site message, w') ->
  svc w' = svc w /\ sent w' = buildRequest endpoint auth :: sent w.
Proof.
  unfold requestIntrospection.
  destruct (readReply _) as [f|d]; intros E; inversion E; subst; simpl; auto.
Qed.

Lemma requestIntrospection_fetched net endpoint auth k w d w' :
  requestIntrospection net endpoint auth k w = (Fetched d, w') ->
  cache (svc w') !! k = Some {| data := d; timestamp := now w' |} /\
  CACHE_DURATION (svc w') = CACHE_DURATION (svc w).
Proof.
  unfold requestIntrospection.
  destruct (readReply _) as [f|d']; intros E; inversion E; subst; simpl.
  split; [apply lookup_insert_eq | reflexivity].
Qed.

(** A valid entry under the key is returned as it is: nothing is sent and
    the service is left alone. *)
Lemma fetchIntrospection_hit net endpoint auth w entry :
  cache (svc w) !! getCacheKey endpoint auth = Some entry ->
  isValidCache (svc w) (now w) entry = true ->
  fetchIntrospection net endpoint auth w =
    (Fetched (data entry),
     console_info ("🚀🚀🚀 ====== endpoint: " ++ endpoint) w).
Proof.
  intros Hlook Hvalid. unfold fetchIntrospection. simpl.
  rewrite Hlook, Hvalid. reflexivity.
Qed.

Lemma fetchIntrospection_miss net endpoint auth w :
  misses endpoint auth w = true ->
  fetchIntrospection net endpoint auth w =
    requestIntrospection net endpoint auth (getCacheKey endpoint auth)
      (console_info ("🚀🚀🚀 ====== endpoint: " ++ endpoint) w).
Proof.
  unfold misses, fetchIntrospection. simpl.
  destruct (cache (svc w) !! getCacheKey endpoint auth) as [e|]; [|reflexivity].
  intros Hm. apply negb_true_iff in Hm. rewrite Hm. reflexivity.
Qed.

(** After a call that returned [d], the cache holds [d] under the call's
    key. *)
Lemma fetchIntrospection_entry net endpoint auth w d w1 :
  fetchIntrospection net endpoint auth w = (Fetched d, w1) ->
  exists entry,
    cache (svc w1) !! getCacheKey endpoint auth = Some entry /\ data entry = d.
Proof.
  unfold fetchIntrospection. simpl.
  destruct (cache (svc w) !! getCacheKey endpoint auth) as [e|] eqn:Hlook.
  - destruct (isValidCache (svc w) (now w) e) eqn:Hvalid.
    + intros E. inversion E; subst; simpl. eauto.
    + intros E. apply requestIntrospection_fetched in E as [E _]. eauto.
  - intros E. apply requestIntrospection_fetched in E as [E _]. eauto.
Qed.

(** The shared core of the cache-hit claims: a later call whose key is the
    same string, made while the entry is younger than [CACHE_DURATION],
    returns the first call's document without touching the network. *)
Lemma second_call_hits net1 net2 endpoint1 endpoint2 auth1 auth2 w d w1 :
  getCacheKey endpoint1 auth1 = getCacheKey endpoint2 auth2 ->
  fetchIntrospection net1 endpoint1 auth1 w = (Fetched d, w1) ->
  exists entry,
    cache (svc w1) !! getCacheKey endpoint1 auth1 = Some entry /\
    forall t2, t2 - timestamp entry < CACHE_DURATION (svc w1) ->
      exists w2,
        fetchIntrospection net2 endpoint2 auth2 (at_time t2 w1) = (Fetched d, w2) /\
        sent w2 = sent w1 /\ svc w2 = svc w1.
Proof.
  intros Hkey Hfirst.
  destruct (fetchIntrospection_entry _ _ _ _ _ _ Hfirst) as (entry & Hlook & Hdata).
  exists entry. split; [exact Hlook|]. intros t2 Hage.
  eexists. split; [|split].
  - rewrite <- Hdata. apply fetchIntrospection_hit.
    + simpl. rewrite <- Hkey. exact Hlook.
    + unfold isValidCache. simpl. apply Z.ltb_lt. exact Hage.
  - reflexivity.
  - reflexivity.
Qed.

Lemma truthy_username_is_authKey auth u :
  given (username auth) = Some u -> authKey auth = u.
Proof.
  unfold authKey, given, js_or. destruct (username auth) as [s|]; [|discriminate].
  destruct (String.eqb s EmptyString); [discriminate|]. congruence.
Qed.

End FetcherProperties.

Section FetcherClaims.
Context `{Platform}.

(** C1.  Two calls with the same endpoint and the same derived auth
    identity ([authKey]): once the first has returned a document [d], a
    second call made while the cache entry's age is strictly below
    [CACHE_DURATION] returns [d], sends nothing on the network and leaves
    the service as it was, whatever the network would have answered. *)
Theorem C1_second_call_served_from_cache
    net1 net2 endpoint auth1 auth2 w d w1 :
  authKey auth1 = authKey auth2 ->
  fetchIntrospection net1 endpoint auth1 w = (Fetched d, w1) ->
  exists entry,
    cache (svc w1) !! getCacheKey endpoint auth1 = Some entry /\
    forall t2, t2 - timestamp entry < CACHE_DURATION (svc w1) ->
      exists w2,
        fetchIntrospection net2 endpoint auth2 (at_time t2 w1) = (Fetched d, w2) /\
        sent w2 = sent w1 /\ svc w2 = svc w1.
Proof.
  intros Hid Hfirst.
  apply (second_call_hits net1 net2 endpoint endpoint auth1 auth2 w d w1); auto.
  unfold getCacheKey. rewrite Hid. reflexivity.
Qed.

(** C4.  The cache key leaves the password out: two auth descriptors with
    the same user name present (defined and not empty, the source's
    truthiness test) get the same key, whatever their passwords and bearer
    tokens, so a second call within the cache window is answered with the
    document the first one cached. *)
Theorem C4_same_username_same_cache_entry endpoint auth1 auth2 u :
  given (username auth1) = Some u ->
  given (username auth2) = Some u ->
  getCacheKey endpoint auth1 = getCacheKey endpoint auth2 /\
  forall net1 net2 w d w1,
    fetchIntrospection net1 endpoint auth1 w = (Fetched d, w1) ->
    exists entry,
      cache (svc w1) !! getCacheKey endpoint auth1 = Some entry /\
      forall t2, t2 - timestamp entry < CACHE_DURATION (svc w1) ->
        exists w2,
          fetchIntrospection net2 endpoint auth2 (at_time t2 w1) = (Fetched d, w2) /\
          sent w2 = sent w1 /\ svc w2 = svc w1.
Proof.
  intros H1 H2.
  assert (Hkey : getCacheKey endpoint auth1 = getCacheKey endpoint auth2).
  { unfold getCacheKey.
    rewrite (truthy_username_is_authKey _ _ H1), (truthy_username_is_authKey _ _ H2).
    reflexivity. }
  split; [exact Hkey|].
  intros net1 net2 w d w1 Hfirst.
  exact (second_call_hits net1 net2 endpoint endpoint auth1 auth2 w d w1 Hkey Hfirst).
Qed.

(** C10.  A call of [fetchIntrospection] that fails, at whichever site,
    leaves the cache map as it found it: no entry is created, overwritten
    or removed. *)
Theorem C10_failed_fetch_keeps_cache net endpoint auth w site message w' :
  fetchIntrospection net endpoint auth w = (Failed site message, w') ->
  cache (svc w') = cache (svc w) /\
  forall k, cache (svc w') !! k = cache (svc w) !! k.
Proof.
  intros E.
  assert (Hsvc : svc w' = svc w).
  { revert E. unfold fetchIntrospection. simpl.
    destruct (cache (svc w) !! getCacheKey endpoint auth) as [e|].
    - destruct (isValidCache (svc w) (now w) e); [discriminate|].
      intros E. apply requestIntrospection_failed in E as [E _]. exact E.
    - intros E. apply requestIntrospection_failed in E as [E _]. exact E. }
  rewrite Hsvc. split; [reflexivity | intros k; reflexivity].
Qed.

End FetcherClaims.

Section FetcherClaims2.
Context `{Platform}.

Lemma ok_2xx response : ok response = true <-> 200 <= status response < 300.
Proof.
  unfold ok. rewrite andb_true_iff, Z.leb_le, Z.ltb_lt. reflexivity.
Qed.

(** What the [try] block does with a 2xx response whose body parsed. *)
Lemma readReply_2xx response result :
  ok response = true ->
  json response = inr result ->
  readReply (Resolved response) =
    match get_property result "errors" with
    | inl t => inl (FetchFailure t)
    | inr errors =>
        if truthy errors then inl (GraphQLError (default JNull errors))
        else match get_property result "data" with
             | inl t => inl (FetchFailure t)
             | inr d => inr d
             end
    end.
Proof.
  intros Hok Hjson. unfold readReply. rewrite Hok, Hjson. reflexivity.
Qed.

Lemma readReply_GraphQLError response result errors :
  ok response = true ->
  json response = inr result ->
  readReply (Resolved response) = inl (GraphQLError errors) <->
  get_property result "errors" = inr (Some errors) /\ truthy (Some errors) = true.
Proof.
  intros Hok Hjson. rewrite (readReply_2xx _ _ Hok Hjson).
  destruct (get_property result "errors") as [t|[e|]] eqn:Hp.
  - split; [discriminate | intros [? _]; discriminate].
  - destruct (truthy (Some e)) eqn:Ht.
    + simpl. split.
      * intros E. inversion E; subst. auto.
      * intros [E _]. inversion E; subst. reflexivity.
    + split.
      * destruct (get_property result "data"); discriminate.
      * intros [E Ht']. inversion E; subst. congruence.
  - simpl. split.
    + destruct (get_property result "data"); discriminate.
    + intros [E _]. discriminate.
Qed.

(** A non-2xx status fails at the transport site, with the status and its
    text in the message; a rejected [fetch] fails with what it threw. *)
Lemma fetchIntrospection_not_2xx net endpoint auth w response :
  misses endpoint auth w = true ->
  outcome (net (buildRequest endpoint auth)) = Resolved response ->
  ok response = false ->
  fst (fetchIntrospection net endpoint auth w) =
    Failed (TransportError (status response) (statusText response))
      ("Failed to fetch GraphQL schema: HTTP " ++ pretty (status response)
       ++ ": " ++ statusText response).
Proof.
  intros Hmiss Hout Hok. rewrite (fetchIntrospection_miss _ _ _ _ Hmiss).
  unfold requestIntrospection. rewrite Hout. simpl. rewrite Hok. reflexivity.
Qed.

Lemma fetchIntrospection_rejected net endpoint auth w t :
  misses endpoint auth w = true ->
  outcome (net (buildRequest endpoint auth)) = Rejected t ->
  fst (fetchIntrospection net endpoint auth w) = Failed (FetchFailure t) (rewrap t).
Proof.
  intros Hmiss Hout. rewrite (fetchIntrospection_miss _ _ _ _ Hmiss).
  unfold requestIntrospection. rewrite Hout. reflexivity.
Qed.

(** C2, as the code has it.  For a 2xx response whose body parsed, the
    fetch fails at the GraphQL-errors site exactly when the body's
    [errors] member is truthy (present and not [null], [false], [0] or the
    empty string; an array counts also when it is empty), and the message
    thrown is then the [catch] block's prefix, [GraphQL errors: ] and
    [JSON.stringify] of that member. *)
Theorem C2_GraphQLError_iff_errors_truthy
    net endpoint auth w response result errors message :
  misses endpoint auth w = true ->
  outcome (net (buildRequest endpoint auth)) = Resolved response ->
  200 <= status response < 300 ->
  json response = inr result ->
  fst (fetchIntrospection net endpoint auth w) = Failed (GraphQLError errors) message <->
  get_property result "errors" = inr (Some errors) /\
  truthy (Some errors) = true /\
  message = "Failed to fetch GraphQL schema: GraphQL errors: " ++ JSON_stringify errors.
Proof.
  intros Hmiss Hout Hst Hjson. apply ok_2xx in Hst.
  rewrite (fetchIntrospection_miss _ _ _ _ Hmiss).
  unfold requestIntrospection. rewrite Hout.
  pose proof (readReply_GraphQLError response result errors Hst Hjson) as Hiff.
  destruct (readReply (Resolved response)) as [site|d] eqn:Hr; simpl.
  - split.
    + intros E. inversion E; subst. destruct Hiff as [Hiff _].
      specialize (Hiff eq_refl) as [? ?]. auto.
    + intros (Hp & Ht & Hm). destruct Hiff as [_ Hiff].
      specialize (Hiff (conj Hp Ht)). inversion Hiff; subst. reflexivity.
  - split; [discriminate|].
    intros (Hp & Ht & _). destruct Hiff as [_ Hiff].
    specialize (Hiff (conj Hp Ht)). discriminate.
Qed.

(** C5.  On the way to the network the request carries
    [Content-Type: application/json]; its [Authorization] header is
    [Bearer <token>] whenever a bearer token is present (user name and
    password or not), else [Basic <base64(username:password)>] when user
    name and password are both present, else absent.  Present means
    defined and not the empty string, the source's truthiness test. *)
Theorem C5_request_headers net endpoint auth w :
  misses endpoint auth w = true ->
  exists request,
    sent (snd (fetchIntrospection net endpoint auth w)) = request :: sent w /\
    headers request !! "Content-Type" = Some "application/json" /\
    (forall token, given (bearer_token auth) = Some token ->
       headers request !! "Authorization" = Some ("Bearer " ++ token)) /\
    (forall user pass, given (bearer_token auth) = None ->
       given (username auth) = Some user -> given (password auth) = Some pass ->
       headers request !! "Authorization" = Some ("Basic " ++ base64 (user ++ ":" ++ pass))) /\
    (given (bearer_token auth) = None ->
     given (username auth) = None \/ given (password auth) = None ->
     headers request !! "Authorization" = None).
Proof.
  intros Hmiss. exists (buildRequest endpoint auth).
  split.
  { rewrite (fetchIntrospection_miss _ _ _ _ Hmiss). unfold requestIntrospection.
    destruct (readReply _); reflexivity. }
  simpl. unfold buildHeaders.
  destruct (given (bearer_token auth)) as [tok|];
    [| destruct (given (username auth)) as [u|]; [destruct (given (password auth)) as [p|]|] ].
  all: repeat split; intros; simplify_map_eq; try reflexivity; try congruence.
  all: try (match goal with Hor : _ \/ _ |- _ => destruct Hor; discriminate end).
Qed.

End FetcherClaims2.

(** C3.  The validity window does not come from the environment:
    [CACHE_DURATION] is 300000 ms whatever [process.env] holds at start-up,
    also under [CACHE_DURATION_MS=600000], where an entry that is 400000 ms
    old is already stale.  Only the default endpoint is read from the
    environment ([BASE_URL]). *)
Theorem C3_cache_duration_ignores_environment :
  (forall env, CACHE_DURATION (new_Service env) = 300000) /\
  (let env : gmap string string := {[ "CACHE_DURATION_MS" := "600000" ]} in
   isValidCache (new_Service env) 401000 {| data := None; timestamp := 1000 |} = false) /\
  (forall env url, given (env !! "BASE_URL") = Some url ->
     DEFAULT_ENDPOINT (new_Service env) = url).
Proof.
  split; [reflexivity|]. split; [reflexivity|].
  intros env url. unfold new_Service, given, js_or. simpl.
  destruct (env !! "BASE_URL") as [s|]; [|discriminate].
  destruct (String.eqb s EmptyString); [discriminate|]. congruence.
Qed.

(** ** The fetcher on concrete inputs *)
Section FetcherExamples.
Import Samples.

Example first_call_fetches :
  fetchIntrospection (answering (http 200 "OK" good_body) 2000) endpoint alice start
  = (Fetched (Some document), after_first).
Proof. vm_compute. reflexivity. Qed.

Example first_call_request :
  sent after_first =
    [ {| url := endpoint; method := "POST";
         headers := {[ "Content-Type" := "application/json";
                       "Authorization" := "Basic YWxpY2U6c2VjcmV0" ]};
         body := JSON_stringify (JObject [("query", JString getIntrospectionQuery)]) |} ].
Proof. vm_compute. reflexivity. Qed.

Lemma C1_witness :
  exists entry,
    cache (svc after_first) !! getCacheKey endpoint alice = Some entry /\
    forall t2, t2 - timestamp entry < CACHE_DURATION (svc after_first) ->
      exists w2,
        fetchIntrospection (unreachable 0) endpoint alice (at_time t2 after_first)
          = (Fetched (Some document), w2) /\
        sent w2 = sent after_first /\ svc w2 = svc after_first.
Proof.
  apply (C1_second_call_served_from_cache
           (answering (http 200 "OK" good_body) 2000) (unreachable 0)
           endpoint alice alice start (Some document) after_first).
  - reflexivity.
  - vm_compute. reflexivity.
Defined.

Lemma C4_witness :
  getCacheKey endpoint alice = getCacheKey endpoint alice' /\
  exists w2,
    fetchIntrospection (unreachable 0) endpoint alice' (at_time 301999 after_first)
      = (Fetched (Some document), w2) /\
    sent w2 = sent after_first /\ svc w2 = svc after_first.
Proof.
  destruct (C4_same_username_same_cache_entry endpoint alice alice' "alice"
              eq_refl eq_refl) as [Hkey Hcollide].
  split; [exact Hkey|].
  destruct (Hcollide (answering (http 200 "OK" good_body) 2000) (unreachable 0)
              start (Some document) after_first) as (entry & Hentry & Hwindow).
  - vm_compute. reflexivity.
  - apply (Hwindow 301999).
    vm_compute in Hentry. inversion Hentry; subst.
    vm_compute. reflexivity.
Defined.

(** The collision at work: [alice'] asks 1 ms before the entry expires and
    is given what [alice] fetched; at the expiry instant the call goes to
    the network again. *)
Example other_password_same_document :
  fst (fetchIntrospection (unreachable 0) endpoint alice' (at_time 301999 after_first))
  = Fetched (Some document).
Proof. vm_compute. reflexivity. Qed.

Example expired_entry_refetches :
  fst (fetchIntrospection (unreachable 302001) endpoint alice (at_time 302000 after_first))
  = Failed (FetchFailure (JsError "connect ECONNREFUSED 127.0.0.1:4000"))
      "Failed to fetch GraphQL schema: connect ECONNREFUSED 127.0.0.1:4000".
Proof. vm_compute. reflexivity. Qed.

Lemma C10_witness :
  cache (svc (snd (fetchIntrospection (answering (http 503 "Service Unavailable" JNull) 302500)
                     endpoint alice (at_time 302000 after_first))))
    = cache (svc (at_time 302000 after_first)) /\
  forall k,
    cache (svc (snd (fetchIntrospection (answering (http 503 "Service Unavailable" JNull) 302500)
                       endpoint alice (at_time 302000 after_first)))) !! k
    = cache (svc (at_time 302000 after_first)) !! k.
Proof.
  apply (C10_failed_fetch_keeps_cache
           (answering (http 503 "Service Unavailable" JNull) 302500) endpoint alice
           (at_time 302000 after_first)
           (TransportError 503 "Service Unavailable")
           "Failed to fetch GraphQL schema: HTTP 503: Service Unavailable").
  vm_compute. reflexivity.
Defined.

(** The stale entry survives the failed refresh. *)
Example stale_entry_survives_failure :
  cache (svc (snd (fetchIntrospection (answering (http 503 "Service Unavailable" JNull) 302500)
                     endpoint alice (at_time 302000 after_first))))
    !! getCacheKey endpoint alice
  = Some {| data := Some document; timestamp := 2000 |}.
Proof. vm_compute. reflexivity. Qed.

Lemma C2_witness :
  fst (fetchIntrospection (answering (http 200 "OK" errors_body) 2000) endpoint anonymous start)
    = Failed (GraphQLError (JArray [JObject [("message", JString "introspection is disabled")]]))
        ("Failed to fetch GraphQL schema: GraphQL errors: "
         ++ JSON_stringify (JArray [JObject [("message", JString "introspection is disabled")]]))
  <->
  get_property errors_body "errors"
    = inr (Some (JArray [JObject [("message", JString "introspection is disabled")]])) /\
  truthy (Some (JArray [JObject [("message", JString "introspection is disabled")]])) = true /\
  "Failed to fetch GraphQL schema: GraphQL errors: "
    ++ JSON_stringify (JArray [JObject [("message", JString "introspection is disabled")]])
  = "Failed to fetch GraphQL schema: GraphQL errors: "
    ++ JSON_stringify (JArray [JObject [("message", JString "introspection is disabled")]]).
Proof.
  apply (C2_GraphQLError_iff_errors_truthy
           (answering (http 200 "OK" errors_body) 2000) endpoint anonymous start
           (http 200 "OK" errors_body) errors_body).
  - reflexivity.
  - reflexivity.
  - simpl. lia.
  - reflexivity.
Defined.

(** C2 as the claim states it fails on the empty array: [[]] is truthy, so
    a 200 response carrying [errors: []] makes the fetch fail at the
    GraphQL-errors site. *)
Lemma C2_empty_errors_array_fails :
  ~ (get_property empty_errors_body "errors" = inr (Some (JArray [])) ->
     forall errors message,
       fst (fetchIntrospection (answering (http 200 "OK" empty_errors_body) 2000)
              endpoint anonymous start)
       <> Failed (GraphQLError errors) message).
Proof.
  intros Hclaim.
  apply (Hclaim eq_refl (JArray []) "Failed to fetch GraphQL schema: GraphQL errors: []").
  vm_compute. reflexivity.
Qed.

Lemma C5_witness :
  exists request,
    sent (snd (fetchIntrospection (unreachable 1500) endpoint all_credentials start))
      = request :: sent start /\
    headers request !! "Content-Type" = Some "application/json" /\
    (forall token, given (bearer_token all_credentials) = Some token ->
       headers request !! "Authorization" = Some ("Bearer " ++ token)) /\
    (forall user pass, given (bearer_token all_credentials) = None ->
       given (username all_credentials) = Some user ->
       given (password all_credentials) = Some pass ->
       headers request !! "Authorization" = Some ("Basic " ++ base64 (user ++ ":" ++ pass))) /\
    (given (bearer_token all_credentials) = None ->
     given (username all_credentials) = None \/ given (password all_credentials) = None ->
     headers request !! "Authorization" = None).
Proof.
  apply (C5_request_headers (unreachable 1500) endpoint all_credentials start).
  reflexivity.
Defined.

Example bearer_wins :
  headers (buildRequest endpoint all_credentials) !! "Authorization" = Some "Bearer tok".
Proof. vm_compute. reflexivity. Qed.

(** Under [CACHE_DURATION_MS=600000] a call made 400000 ms after the entry
    was stored still goes to the network. *)
Example override_is_not_honoured :
  let first := answering (http 200 "OK" good_body) 1000 in
  let w1 := snd (fetchIntrospection first endpoint alice start_configured) in
  length (sent w1) = 1%nat /\
  length (sent (snd (fetchIntrospection first endpoint alice (at_time 401000 w1)))) = 2%nat.
Proof. vm_compute. split; reflexivity. Qed.

End FetcherExamples.

(** * Properties of the formatter *)

(** Induction along [ofType]. *)
Lemma TypeRef_induction (P : TypeRef -> Prop) :
  (forall kind name description, P (mkTypeRef kind name description None)) ->
  (forall kind name description inner,
      P inner -> P (mkTypeRef kind name description (Some inner))) ->
  forall t, P t.
Proof.
  intros Hleaf Hwrap. fix IH 1. intros [kind name description [inner|]].
  - apply Hwrap, IH.
  - apply Hleaf.
Qed.

Section FormatterClaims.
Context `{Platform}.

(** [formatType] unfolds as the source reads: the recursive call is
    [formatType] itself, on [type.ofType]. *)
Lemma formatType_unfold t :
  formatType (Some t) =
    if String.eqb (tr_kind t) "NON_NULL" then Some (NON_NULL (formatType (ofType t)))
    else if String.eqb (tr_kind t) "LIST" then Some (LIST (formatType (ofType t)))
    else Some (Named (tr_kind t) (tr_name t) (tr_description t)).
Proof.
  destruct t as [kind name description [inner|]]; simpl;
    destruct (String.eqb kind "NON_NULL"); try reflexivity;
    destruct (String.eqb kind "LIST"); reflexivity.
Qed.

Lemma formatTypeObject_nesting t :
  formatted_nesting (formatTypeObject t) = nesting t.
Proof.
  induction t as [kind name description | kind name description inner IH]
    using TypeRef_induction; simpl.
  - destruct (String.eqb kind "NON_NULL") eqn:En.
    + apply String.eqb_eq in En. subst. reflexivity.
    + destruct (String.eqb kind "LIST") eqn:El; [|reflexivity].
      apply String.eqb_eq in El. subst. reflexivity.
  - destruct (String.eqb kind "NON_NULL") eqn:En.
    + apply String.eqb_eq in En. subst. simpl. rewrite IH. reflexivity.
    + destruct (String.eqb kind "LIST") eqn:El; [|reflexivity].
      apply String.eqb_eq in El. subst. simpl. rewrite IH. reflexivity.
Qed.

(** C6.  [formatType] gives [null] for a [null] or absent reference; for
    kind [NON_NULL] the object [{kind: NON_NULL, of_type: format(inner),
    is_required: true}]; for kind [LIST] the object [{kind: LIST, of_type:
    format(inner), is_list: true}]; for any other kind the terminal
    [{kind, name, description}].  Nesting is kept level by level: the kinds
    met on the way down the result are those met on the way down the input,
    and a non-null list of scalar [Int] formats to [NON_NULL] of [LIST] of
    the terminal [SCALAR Int]. *)
Theorem C6_formatType_shapes :
  formatType None = None /\
  (forall t, tr_kind t = "NON_NULL" ->
     formatType (Some t) = Some (NON_NULL (formatType (ofType t)))) /\
  (forall t, tr_kind t = "LIST" ->
     formatType (Some t) = Some (LIST (formatType (ofType t)))) /\
  (forall t, tr_kind t <> "NON_NULL" -> tr_kind t <> "LIST" ->
     formatType (Some t) = Some (Named (tr_kind t) (tr_name t) (tr_description t))) /\
  (forall t, exists f,
     formatType (Some t) = Some f /\ formatted_nesting f = nesting t) /\
  formatType
    (Some (mkTypeRef "NON_NULL" None None
       (Some (mkTypeRef "LIST" None None
          (Some (mkTypeRef "SCALAR" (Some "Int") None None))))))
  = Some (NON_NULL (Some (LIST (Some (Named "SCALAR" (Some "Int") None))))).
Proof.
  split; [reflexivity|].
  split.
  { intros t Hk. rewrite formatType_unfold, Hk. reflexivity. }
  split.
  { intros t Hk. rewrite formatType_unfold, Hk. reflexivity. }
  split.
  { intros t Hn Hl. rewrite formatType_unfold.
    apply String.eqb_neq in Hn, Hl. rewrite Hn, Hl. reflexivity. }
  split.
  { intros t. exists (formatTypeObject t). split; [reflexivity|].
    apply formatTypeObject_nesting. }
  reflexivity.
Qed.

End FormatterClaims.

Section FilterClaims.
Context `{Platform}.

Lemma filter_filter_andb {A} (p q : A -> bool) (l : list A) :
  List.filter q (List.filter p l) = List.filter (fun x => p x && q x) l.
Proof.
  induction l as [|x l IH]; simpl; [reflexivity|].
  destruct (p x); simpl; [destruct (q x)|]; rewrite IH; reflexivity.
Qed.

Lemma matchesSearch_contains search name description :
  matchesSearch (toLowerCase search) name description =
    contains_ci name search ||
    match given description with
    | Some text => contains_ci text search
    | None => false
    end.
Proof. reflexivity. Qed.

(** The three successive [filter] calls keep what one pass with the
    conjunction keeps, in the same order. *)
Lemma filterTypes_selected s options d :
  ts_types (filterTypes s options d) =
    map (formatTypeItem (to_detailed options))
        (List.filter (selected options) (types (__schema d))).
Proof.
  unfold filterTypes, selected. simpl. f_equal.
  destruct (given (to_kind options)) as [kind|];
    destruct (given (to_search options)) as [search|];
    rewrite ?filter_filter_andb; apply List.filter_ext; intros t;
    rewrite ?matchesSearch_contains, ?andb_assoc, ?andb_true_r; reflexivity.
Qed.

Lemma selected_true options t :
  selected options t = true <->
  startsWith (t_name t) "__" = false /\
  (forall kind, given (to_kind options) = Some kind -> t_kind t = kind) /\
  (forall search, given (to_search options) = Some search ->
     contains_ci (t_name t) search = true \/
     exists text, given (t_description t) = Some text /\ contains_ci text search = true).
Proof.
  unfold selected. rewrite !andb_true_iff, negb_true_iff.
  split.
  - intros [[Hn Hk] Hs]. split; [exact Hn|]. split.
    + intros kind Hg. rewrite Hg in Hk. apply String.eqb_eq. exact Hk.
    + intros search Hg. rewrite Hg in Hs. apply orb_true_iff in Hs as [Hs|Hs].
      * left. exact Hs.
      * right. destruct (given (t_description t)) as [text|]; [|discriminate]. eauto.
  - intros (Hn & Hk & Hs). split; [split; [exact Hn|]|].
    + destruct (given (to_kind options)) as [kind|]; [|reflexivity].
      apply String.eqb_eq. apply Hk. reflexivity.
    + destruct (given (to_search options)) as [search|]; [|reflexivity].
      apply orb_true_iff. destruct (Hs search eq_refl) as [Hc|(text & Hd & Hc)].
      * left. exact Hc.
      * right. rewrite Hd. exact Hc.
Qed.

(** C7.  The [types] of a [filter_types] result are the formatted declared
    types, in declaration order, that satisfy all three conditions at once:
    the name does not begin with two underscores, and the kind string equals
    the requested kind when a kind is given, and the name or the description
    contains the search string case-insensitively when a search string is
    given.  (A kind or search string is given when it is defined and not
    empty, the source's truthiness test.)  [total] is their number. *)
Theorem C7_filterTypes_conjunction s options d :
  ts_types (filterTypes s options d) =
    map (formatTypeItem (to_detailed options))
        (List.filter (selected options) (types (__schema d))) /\
  ts_total (filterTypes s options d) =
    length (List.filter (selected options) (types (__schema d))) /\
  ts_success (filterTypes s options d) = true /\
  forall t,
    In t (List.filter (selected options) (types (__schema d))) <->
    In t (types (__schema d)) /\
    startsWith (t_name t) "__" = false /\
    (forall kind, given (to_kind options) = Some kind -> t_kind t = kind) /\
    (forall search, given (to_search options) = Some search ->
       contains_ci (t_name t) search = true \/
       exists text, given (t_description t) = Some text /\ contains_ci text search = true).
Proof.
  split; [apply filterTypes_selected|].
  split.
  { change (ts_total (filterTypes s options d))
      with (length (ts_types (filterTypes s options d))).
    rewrite filterTypes_selected. apply length_map. }
  split; [reflexivity|].
  intros t. rewrite List.filter_In, selected_true. reflexivity.
Qed.

Lemma rootFields_None_cases root d :
  rootFields root d = None ->
  root = None \/
  exists r, root = Some r /\
    (findType (root_name r) (types (__schema d)) = None \/
     exists t, findType (root_name r) (types (__schema d)) = Some t /\ fields t = None).
Proof.
  unfold rootFields. destruct root as [r|]; [|auto].
  intros Hr. right. exists r. split; [reflexivity|].
  destruct (findType (root_name r) (types (__schema d))) as [t|]; [|auto].
  right. exists t. auto.
Qed.

(** C8.  When the schema names no query root, or the named root type is not
    declared or has no field list, [filter_queries] returns [success: true],
    [total: 0] and an empty [queries] list; likewise [filter_mutations] with
    the mutation root.  Neither body has a [throw]: both always return. *)
Theorem C8_missing_root_gives_empty_success s options d :
  (rootFields (queryType (__schema d)) d = None ->
     q_success (filterQueries s options d) = true /\
     q_total (filterQueries s options d) = O /\
     queries (filterQueries s options d) = []) /\
  (rootFields (mutationType (__schema d)) d = None ->
     m_success (filterMutations s options d) = true /\
     m_total (filterMutations s options d) = O /\
     mutations (filterMutations s options d) = []).
Proof.
  split; intros Hr; apply rootFields_None_cases in Hr.
  - unfold filterQueries.
    destruct Hr as [Hr|(r & Hr & [Hf|(t & Hf & Hfs)])]; rewrite Hr; try rewrite Hf;
      try rewrite Hfs; simpl; auto.
  - unfold filterMutations.
    destruct Hr as [Hr|(r & Hr & [Hf|(t & Hf & Hfs)])]; rewrite Hr; try rewrite Hf;
      try rewrite Hfs; simpl; auto.
Qed.

End FilterClaims.

Section FieldDetailsClaims.
Context `{Platform}.

Lemma last_char_app a b :
  last_char (a ++ b) =
    match last_char b with
    | Some l => Some l
    | None => last_char a
    end.
Proof.
  induction a as [|c a IH].
  - change (EmptyString ++ b) with b. destruct (last_char b); reflexivity.
  - change (String c a ++ b) with (String c (a ++ b)).
    cbn [last_char]. rewrite IH. destruct (last_char b); reflexivity.
Qed.

Lemma no_root_message_last op : last_char (no_root_message op) = Some "e"%char.
Proof. unfold no_root_message. rewrite !last_char_app. reflexivity. Qed.

Lemma no_fields_message_last op : last_char (no_fields_message op) = Some "s"%char.
Proof. unfold no_fields_message. rewrite last_char_app. reflexivity. Qed.

Lemma field_not_found_message_last name op :
  last_char (field_not_found_message name op) = Some "e"%char.
Proof. unfold field_not_found_message. rewrite !last_char_app. reflexivity. Qed.

(** The three messages differ whatever operation names and field name they
    are built from: the first begins with [N] and the third with [F]; the
    second ends in [s], the other two in [e]. *)
Lemma messages_distinct op1 op2 op3 name :
  no_root_message op1 <> no_fields_message op2 /\
  no_root_message op1 <> field_not_found_message name op3 /\
  no_fields_message op2 <> field_not_found_message name op3.
Proof.
  split; [|split]; intros E.
  - apply (f_equal last_char) in E.
    rewrite no_root_message_last, no_fields_message_last in E. discriminate.
  - unfold no_root_message, field_not_found_message in E.
    cbv [String.append] in E. discriminate.
  - apply (f_equal last_char) in E.
    rewrite no_fields_message_last, field_not_found_message_last in E. discriminate.
Qed.

(** [getFieldDetails] case by case, in the terms of [rootTypeOf] and
    [rootFields]. *)
Lemma getFieldDetails_cases s options d :
  getFieldDetails s options d =
    match rootTypeOf options d with
    | None => Throw (no_root_message (operationTypeOf options))
    | Some r =>
        match rootFields (Some r) d with
        | None => Throw (no_fields_message (operationTypeOf options))
        | Some fs =>
            match find (fun f => String.eqb (f_name f) (field_name options)) fs with
            | None =>
                Throw (field_not_found_message (field_name options) (operationTypeOf options))
            | Some f =>
                Return {| fd_success := true;
                          fd_endpoint := resolveEndpoint s (fdo_endpoint options);
                          fd_operation_type := operationTypeOf options;
                          field := {| fd_name := f_name f;
                                      fd_description := f_description f;
                                      fd_arguments := formatArguments (args f);
                                      fd_return_type := formatType (f_type f);
                                      fd_deprecated := isDeprecated f;
                                      fd_deprecation_reason := deprecationReason f |} |}
            end
        end
    end.
Proof.
  unfold getFieldDetails, rootTypeOf, rootFields, operationTypeOf.
  destruct (if String.eqb (js_or (operation_type options) "query") "mutation"
            then mutationType (__schema d) else queryType (__schema d)) as [r|];
    [|reflexivity].
  destruct (findType (root_name r) (types (__schema d))) as [t|]; [|reflexivity].
  simpl. destruct (fields t) as [fs|]; reflexivity.
Qed.

(** C9.  [get_field_details] reports not-found with one of three messages:
    [No <op> type available] when the schema lacks the chosen root,
    [<op> type has no fields] when the root type is not declared or has no
    field list, and [Field "<name>" not found in <op> type] when no field
    has the requested name.  It fails in no other case, the three messages
    are pairwise different, and with [operation_type: mutation] on a schema
    without mutation root the message is [No mutation type available],
    which is no field-not-found message. *)
Theorem C9_three_distinct_not_found_messages s options d :
  (rootTypeOf options d = None ->
     getFieldDetails s options d = Throw (no_root_message (operationTypeOf options))) /\
  (forall r, rootTypeOf options d = Some r -> rootFields (Some r) d = None ->
     getFieldDetails s options d = Throw (no_fields_message (operationTypeOf options))) /\
  (forall r fs, rootTypeOf options d = Some r -> rootFields (Some r) d = Some fs ->
     find (fun f => String.eqb (f_name f) (field_name options)) fs = None ->
     getFieldDetails s options d =
       Throw (field_not_found_message (field_name options) (operationTypeOf options))) /\
  (forall message, getFieldDetails s options d = Throw message ->
     message = no_root_message (operationTypeOf options) \/
     message = no_fields_message (operationTypeOf options) \/
     message = field_not_found_message (field_name options) (operationTypeOf options)) /\
  (forall op1 op2 op3 name,
     no_root_message op1 <> no_fields_message op2 /\
     no_root_message op1 <> field_not_found_message name op3 /\
     no_fields_message op2 <> field_not_found_message name op3) /\
  (operation_type options = Some "mutation" -> mutationType (__schema d) = None ->
     getFieldDetails s options d = Throw "No mutation type available" /\
     forall name op, "No mutation type available" <> field_not_found_message name op).
Proof.
  rewrite getFieldDetails_cases.
  split; [intros Hr; rewrite Hr; reflexivity|].
  split; [intros r Hr Hf; rewrite Hr, Hf; reflexivity|].
  split; [intros r fs Hr Hf Hn; rewrite Hr, Hf, Hn; reflexivity|].
  split.
  { intros message.
    destruct (rootTypeOf options d) as [r|]; [|intros E; inversion E; auto].
    destruct (rootFields (Some r) d) as [fs|]; [|intros E; inversion E; auto].
    destruct (find _ fs); intros E; inversion E; auto. }
  split; [apply messages_distinct|].
  intros Hop Hm. unfold rootTypeOf, operationTypeOf. rewrite Hop. simpl. rewrite Hm.
  split; [reflexivity|].
  intros name op. apply (messages_distinct "mutation" "mutation" op name).
Qed.

End FieldDetailsClaims.

(** ** The formatter on concrete inputs *)
Section FormatterExamples.
Import Samples.

Example format_non_null_list_of_int :
  formatType (Some non_null_list_of_int)
  = Some (NON_NULL (Some (LIST (Some (Named "SCALAR" (Some "Int") None))))).
Proof. reflexivity. Qed.

(** Of the three types whose name or description contains "int", the enum
    [Interval] is dropped by the kind filter; of the three scalars,
    [String] is dropped by the search filter. *)
Example scalars_matching_int :
  map ti_name (ts_types (filterTypes service scalars_with_int query_only))
  = ["Int"; "DateTime"].
Proof. vm_compute. reflexivity. Qed.

(** An empty [kind] string is falsy, hence no kind filter at all. *)
Example empty_kind_is_no_filter :
  map ti_name
    (ts_types (filterTypes service
                 {| to_endpoint := None; to_search := None; to_detailed := false;
                    to_kind := Some EmptyString |} query_only))
  = ["Query"; "User"; "Int"; "String"; "DateTime"; "Interval"].
Proof. vm_compute. reflexivity. Qed.

Lemma C8_witness :
  (q_success (filterQueries service no_filter rootless) = true /\
   q_total (filterQueries service no_filter rootless) = O /\
   queries (filterQueries service no_filter rootless) = []) /\
  (m_success (filterMutations service no_filter query_only) = true /\
   m_total (filterMutations service no_filter query_only) = O /\
   mutations (filterMutations service no_filter query_only) = []).
Proof.
  split.
  - apply (C8_missing_root_gives_empty_success service no_filter rootless). reflexivity.
  - apply (C8_missing_root_gives_empty_success service no_filter query_only). reflexivity.
Defined.

Example queries_of_query_only :
  map op_name (queries (filterQueries service no_filter query_only)) = ["user"; "scores"] /\
  q_total (filterQueries service no_filter query_only) = 2%nat.
Proof. vm_compute. split; reflexivity. Qed.

Example mutation_on_query_only :
  getFieldDetails service (mutation_field "createUser") query_only
  = Throw "No mutation type available".
Proof. vm_compute. reflexivity. Qed.

Example unknown_query_field :
  getFieldDetails service (query_field "orders") query_only
  = Throw ("Field " ++ dquote ++ "orders" ++ dquote ++ " not found in query type").
Proof. vm_compute. reflexivity. Qed.

Example known_query_field :
  fd_return_type <$>
    (match getFieldDetails service (query_field "scores") query_only with
     | Return r => Some (field r)
     | Throw _ => None
     end)
  = Some (Some (NON_NULL (Some (LIST (Some (Named "SCALAR" (Some "Int") None)))))).
Proof. vm_compute. reflexivity. Qed.

Lemma C6_witness :
  formatType (Some non_null_list_of_int)
  = Some (NON_NULL (formatType (ofType non_null_list_of_int))).
Proof.
  destruct C6_formatType_shapes as (_ & Hnon_null & _).
  apply (Hnon_null non_null_list_of_int). reflexivity.
Defined.

Lemma C7_witness :
  map ti_name (ts_types (filterTypes service scalars_with_int query_only))
  = ["Int"; "DateTime"].
Proof.
  destruct (C7_filterTypes_conjunction service scalars_with_int query_only)
    as (Htypes & _).
  rewrite Htypes. reflexivity.
Defined.

Lemma C9_witness :
  getFieldDetails service (mutation_field "createUser") query_only
    = Throw "No mutation type available" /\
  "No mutation type available" <> field_not_found_message "createUser" "mutation".
Proof.
  destruct (C9_three_distinct_not_found_messages
              service (mutation_field "createUser") query_only)
    as (_ & _ & _ & _ & _ & Hmutation).
  destruct Hmutation as [Hthrown Hdistinct]; [reflexivity | reflexivity |].
  split; [exact Hthrown | apply Hdistinct].
Defined.

End FormatterExamples.

(** * Further properties of the fetcher *)

Section FetcherExtras.
Context `{Platform}.

Lemma prefix_append p s : String.prefix p (p ++ s) = true.
Proof.
  induction p as [|c p IH].
  - destruct s; reflexivity.
  - change (String c p ++ s) with (String c (p ++ s)). cbn [String.prefix].
    destruct (ascii_dec c c) as [_|Hne]; [exact IH | congruence].
Qed.

Lemma stale_or_absent_misses endpoint auth w :
  (forall entry, cache (svc w) !! getCacheKey endpoint auth = Some entry ->
                 CACHE_DURATION (svc w) <= now w - timestamp entry) ->
  misses endpoint auth w = true.
Proof.
  intros Hstale. unfold misses.
  destruct (cache (svc w) !! getCacheKey endpoint auth) as [entry|]; [|reflexivity].
  apply negb_true_iff. unfold isValidCache. apply Z.ltb_ge. apply Hstale. reflexivity.
Qed.

Lemma requestIntrospection_sent net endpoint auth k w :
  sent (snd (requestIntrospection net endpoint auth k w))
  = buildRequest endpoint auth :: sent w.
Proof. unfold requestIntrospection. destruct (readReply _); reflexivity. Qed.

(** Once the entry under the call's key is as old as [CACHE_DURATION] or
    older (the comparison is strict), or when there is none, the call
    sends exactly one request: a POST of the introspection query to the
    endpoint. *)
Theorem stale_entry_goes_to_network net endpoint auth w :
  (forall entry, cache (svc w) !! getCacheKey endpoint auth = Some entry ->
                 CACHE_DURATION (svc w) <= now w - timestamp entry) ->
  exists request,
    sent (snd (fetchIntrospection net endpoint auth w)) = request :: sent w /\
    url request = endpoint /\ method request = "POST" /\
    body request = JSON_stringify (JObject [("query", JString getIntrospectionQuery)]).
Proof.
  intros Hstale. exists (buildRequest endpoint auth).
  rewrite (fetchIntrospection_miss _ _ _ _ (stale_or_absent_misses _ _ _ Hstale)).
  rewrite requestIntrospection_sent. auto.
Qed.

(** A call never sends more than one request and never retries: either it
    is answered from a valid entry and the network log is as before, or the
    log has grown by the one request of this call. *)
Theorem at_most_one_request net endpoint auth w :
  (sent (snd (fetchIntrospection net endpoint auth w)) = sent w /\
   exists entry,
     cache (svc w) !! getCacheKey endpoint auth = Some entry /\
     now w - timestamp entry < CACHE_DURATION (svc w) /\
     fst (fetchIntrospection net endpoint auth w) = Fetched (data entry)) \/
  (sent (snd (fetchIntrospection net endpoint auth w))
     = buildRequest endpoint auth :: sent w /\
   misses endpoint auth w = true).
Proof.
  destruct (misses endpoint auth w) eqn:Hm.
  - right. rewrite (fetchIntrospection_miss _ _ _ _ Hm).
    rewrite requestIntrospection_sent. auto.
  - left. unfold misses in Hm.
    destruct (cache (svc w) !! getCacheKey endpoint auth) as [entry|] eqn:Hl;
      [|discriminate].
    apply negb_false_iff in Hm.
    rewrite (fetchIntrospection_hit net _ _ _ _ Hl Hm). simpl.
    split; [reflexivity|]. exists entry. split; [reflexivity|].
    split; [|reflexivity]. unfold isValidCache in Hm. apply Z.ltb_lt in Hm. exact Hm.
Qed.

(** A 2xx answer whose body is an object without truthy [errors] is a
    success whether or not it has a [data] member: the call returns that
    member ([undefined] when it is missing) and stores it under the call's
    key with the arrival time, replacing whatever entry was there. *)
Theorem fetched_payload_is_stored net endpoint auth w response members :
  misses endpoint auth w = true ->
  outcome (net (buildRequest endpoint auth)) = Resolved response ->
  200 <= status response < 300 ->
  json response = inr (JObject members) ->
  truthy (lookup_member "errors" members) = false ->
  fst (fetchIntrospection net endpoint auth w)
    = Fetched (lookup_member "data" members) /\
  cache (svc (snd (fetchIntrospection net endpoint auth w)))
    = <[ getCacheKey endpoint auth :=
           {| data := lookup_member "data" members;
              timestamp := arrival (net (buildRequest endpoint auth)) |} ]>
        (cache (svc w)).
Proof.
  intros Hmiss Hout Hst Hjson Herr. apply ok_2xx in Hst.
  rewrite (fetchIntrospection_miss _ _ _ _ Hmiss).
  unfold requestIntrospection. rewrite Hout.
  rewrite (readReply_2xx _ _ Hst Hjson). simpl. rewrite Herr. simpl.
  split; reflexivity.
Qed.

(** A call reads and writes the cache under its own key only. *)
Theorem other_keys_untouched net endpoint auth w k :
  k <> getCacheKey endpoint auth ->
  cache (svc (snd (fetchIntrospection net endpoint auth w))) !! k
  = cache (svc w) !! k.
Proof.
  intros Hk. unfold fetchIntrospection, console_info. simpl.
  assert (Hreq : forall w0,
    cache (svc (snd (requestIntrospection net endpoint auth
                       (getCacheKey endpoint auth) w0))) !! k
    = cache (svc w0) !! k).
  { intros w0. unfold requestIntrospection.
    destruct (readReply _); simpl; [reflexivity|].
    apply lookup_insert_ne. congruence. }
  destruct (cache (svc w) !! getCacheKey endpoint auth) as [entry|].
  - destruct (isValidCache (svc w) (now w) entry); [reflexivity|].
    rewrite Hreq. reflexivity.
  - rewrite Hreq. reflexivity.
Qed.

(** There is no eviction: whatever the call does, every key that had an
    entry still has one afterwards, and the two settings of the service are
    what they were. *)
Theorem no_entry_is_ever_removed net endpoint auth w :
  (forall k, is_Some (cache (svc w) !! k) ->
             is_Some (cache (svc (snd (fetchIntrospection net endpoint auth w))) !! k)) /\
  CACHE_DURATION (svc (snd (fetchIntrospection net endpoint auth w)))
    = CACHE_DURATION (svc w) /\
  DEFAULT_ENDPOINT (svc (snd (fetchIntrospection net endpoint auth w)))
    = DEFAULT_ENDPOINT (svc w).
Proof.
  assert (Hreq : forall w0 key,
    (forall k, is_Some (cache (svc w0) !! k) ->
       is_Some (cache (svc (snd (requestIntrospection net endpoint auth key w0))) !! k)) /\
    CACHE_DURATION (svc (snd (requestIntrospection net endpoint auth key w0)))
      = CACHE_DURATION (svc w0) /\
    DEFAULT_ENDPOINT (svc (snd (requestIntrospection net endpoint auth key w0)))
      = DEFAULT_ENDPOINT (svc w0)).
  { intros w0 key. unfold requestIntrospection.
    destruct (readReply _); simpl; [auto|].
    split; [|auto]. intros k Hk.
    destruct (decide (key = k)) as [->|Hne].
    - rewrite lookup_insert_eq. eauto.
    - rewrite lookup_insert_ne by exact Hne. exact Hk. }
  unfold fetchIntrospection, console_info. simpl.
  destruct (cache (svc w) !! getCacheKey endpoint auth) as [entry|].
  - destruct (isValidCache (svc w) (now w) entry); [simpl; auto|].
    exact (Hreq {| svc := svc w; now := now w; sent := sent w;
                   console := ("🚀🚀🚀 ====== endpoint: " ++ endpoint) :: console w |}
                (getCacheKey endpoint auth)).
  - exact (Hreq {| svc := svc w; now := now w; sent := sent w;
                   console := ("🚀🚀🚀 ====== endpoint: " ++ endpoint) :: console w |}
                (getCacheKey endpoint auth)).
Qed.

(** A status outside 200..299 fails the call without the body being read;
    the message names the numeric status and the status text. *)
Theorem non_2xx_is_reported_with_status net endpoint auth w response :
  misses endpoint auth w = true ->
  outcome (net (buildRequest endpoint auth)) = Resolved response ->
  (status response < 200 \/ 300 <= status response) ->
  fst (fetchIntrospection net endpoint auth w) =
    Failed (TransportError (status response) (statusText response))
      ("Failed to fetch GraphQL schema: HTTP " ++ pretty (status response)
       ++ ": " ++ statusText response).
Proof.
  intros Hmiss Hout Hst. apply fetchIntrospection_not_2xx; [exact Hmiss | exact Hout |].
  unfold ok. apply andb_false_iff. destruct Hst as [Hlo|Hhi].
  - left. apply Z.leb_gt. exact Hlo.
  - right. apply Z.ltb_ge. exact Hhi.
Qed.

(** What [fetch] or [response.json()] throws is caught and thrown again as
    one kind of error: with the original message when an [Error] was
    thrown, with [Unknown error] otherwise. *)
Theorem lower_level_fault_is_rewrapped net endpoint auth w t :
  misses endpoint auth w = true ->
  (outcome (net (buildRequest endpoint auth)) = Rejected t \/
   exists response,
     outcome (net (buildRequest endpoint auth)) = Resolved response /\
     200 <= status response < 300 /\ json response = inl t) ->
  fst (fetchIntrospection net endpoint auth w) =
    Failed (FetchFailure t)
      match t with
      | JsError message => "Failed to fetch GraphQL schema: " ++ message
      | NonError => "Failed to fetch GraphQL schema: Unknown error"
      end.
Proof.
  intros Hmiss [Hout|(response & Hout & Hst & Hjson)].
  - rewrite (fetchIntrospection_rejected _ _ _ _ _ Hmiss Hout). destruct t; reflexivity.
  - apply ok_2xx in Hst. rewrite (fetchIntrospection_miss _ _ _ _ Hmiss).
    unfold requestIntrospection. rewrite Hout. simpl. rewrite Hst, Hjson. simpl.
    destruct t; reflexivity.
Qed.

(** Whatever goes wrong, the message thrown begins with
    [Failed to fetch GraphQL schema: ]. *)
Theorem every_failure_has_the_fetch_prefix net endpoint auth w site message w' :
  fetchIntrospection net endpoint auth w = (Failed site message, w') ->
  String.prefix "Failed to fetch GraphQL schema: " message = true.
Proof.
  assert (Hwrap : forall t,
    String.prefix "Failed to fetch GraphQL schema: " (rewrap t) = true).
  { intros [m|]; [apply prefix_append | reflexivity]. }
  assert (Hreq : forall k w0,
    requestIntrospection net endpoint auth k w0 = (Failed site message, w') ->
    String.prefix "Failed to fetch GraphQL schema: " message = true).
  { intros k w0. unfold requestIntrospection.
    destruct (readReply _) as [f|d]; intros E; inversion E; subst. apply Hwrap. }
  unfold fetchIntrospection, console_info. simpl.
  destruct (cache (svc w) !! getCacheKey endpoint auth) as [entry|].
  - destruct (isValidCache (svc w) (now w) entry); [discriminate | apply Hreq].
  - apply Hreq.
Qed.

(** The cache key does not say which credential the identity came from: a
    caller whose bearer token spells another caller's user name, and an
    anonymous caller next to a user called [no-auth], share one entry. *)
Theorem credentials_of_different_kinds_collide endpoint auth1 auth2 u :
  given (username auth1) = Some u ->
  given (username auth2) = None ->
  (given (bearer_token auth2) = Some u \/
   given (bearer_token auth2) = None /\ u = "no-auth") ->
  getCacheKey endpoint auth1 = getCacheKey endpoint auth2.
Proof.
  intros H1 H2 Hb. unfold getCacheKey. f_equal. f_equal.
  rewrite (truthy_username_is_authKey _ _ H1).
  unfold authKey, given, js_or in *.
  destruct (username auth2) as [s|].
  - destruct (String.eqb s EmptyString); [|discriminate].
    destruct (bearer_token auth2) as [b|].
    + destruct (String.eqb b EmptyString).
      * destruct Hb as [Hb|[_ Hb]]; [discriminate | exact Hb].
      * destruct Hb as [Hb|[Hb _]]; [congruence | discriminate].
    + destruct Hb as [Hb|[_ Hb]]; [discriminate | exact Hb].
  - destruct (bearer_token auth2) as [b|].
    + destruct (String.eqb b EmptyString).
      * destruct Hb as [Hb|[_ Hb]]; [discriminate | exact Hb].
      * destruct Hb as [Hb|[Hb _]]; [congruence | discriminate].
    + destruct Hb as [Hb|[_ Hb]]; [discriminate | exact Hb].
Qed.

(** Every call writes exactly one line to the console, naming the endpoint,
    whether it is answered from the cache, from the network, or fails. *)
Theorem every_call_logs_the_endpoint net endpoint auth w :
  console (snd (fetchIntrospection net endpoint auth w))
  = ("🚀🚀🚀 ====== endpoint: " ++ endpoint) :: console w.
Proof.
  unfold fetchIntrospection, console_info. simpl.
  assert (Hreq : forall k w0,
    console (snd (requestIntrospection net endpoint auth k w0)) = console w0).
  { intros k w0. unfold requestIntrospection. destruct (readReply _); reflexivity. }
  destruct (cache (svc w) !! getCacheKey endpoint auth) as [entry|].
  - destruct (isValidCache (svc w) (now w) entry); [reflexivity|].
    rewrite Hreq. reflexivity.
  - rewrite Hreq. reflexivity.
Qed.

(** The cache of a new service is empty, so the first call of a process
    goes to the network whatever the environment and the clock. *)
Theorem first_call_of_a_process_goes_to_network net endpoint auth env t log lines :
  sent (snd (fetchIntrospection net endpoint auth
               {| svc := new_Service env; now := t; sent := log; console := lines |}))
  = buildRequest endpoint auth :: log.
Proof.
  rewrite fetchIntrospection_miss; [apply requestIntrospection_sent|].
  unfold misses. simpl. rewrite lookup_empty. reflexivity.
Qed.

End FetcherExtras.

(** * Further properties of the formatter *)

Section FormatterExtras.
Context `{Platform}.

Lemma find_none_iff {A} (f : A -> bool) (l : list A) :
  find f l = None <-> forall x, In x l -> f x = false.
Proof.
  split; [apply List.find_none|].
  induction l as [|x l IH]; simpl; intros Hall; [reflexivity|].
  rewrite (Hall x (or_introl eq_refl)). apply IH. intros y Hy. apply Hall. right. exact Hy.
Qed.

Lemma find_first_match {A} (f : A -> bool) (l : list A) x :
  In x l -> f x = true -> exists y, find f l = Some y /\ In y l /\ f y = true.
Proof.
  intros Hin Hfx. destruct (find f l) as [y|] eqn:Hfind.
  - exists y. apply List.find_some in Hfind. tauto.
  - rewrite (List.find_none _ _ Hfind x Hin) in Hfx. discriminate.
Qed.

Lemma includes_append_l a s p : includes s p = true -> includes (a ++ s) p = true.
Proof.
  intros Hs. induction a as [|c a IH].
  - exact Hs.
  - change (String c a ++ s) with (String c (a ++ s)). cbn [includes].
    rewrite IH. apply orb_true_r.
Qed.

Lemma includes_middle a p b : includes (a ++ p ++ b) p = true.
Proof.
  apply includes_append_l. destruct (p ++ b) eqn:E; cbn [includes];
    rewrite <- E, prefix_append; reflexivity.
Qed.

(** [filterQueries] and [filterMutations] once the root's field list is
    known. *)
Lemma filterQueries_with_fields s options d fs :
  rootFields (queryType (__schema d)) d = Some fs ->
  filterQueries s options d =
    {| q_success := true;
       q_endpoint := resolveEndpoint s (fo_endpoint options);
       q_search_term := fo_search options;
       queries := map (formatOperation (fo_detailed options))
                      (List.filter (fieldSelected options) fs);
       q_total := length (List.filter (fieldSelected options) fs) |}.
Proof.
  unfold rootFields, filterQueries, fieldSelected.
  destruct (queryType (__schema d)) as [q|]; [|discriminate].
  destruct (findType (root_name q) (types (__schema d))) as [t|]; [|discriminate].
  intros Hfs. rewrite Hfs. simpl. rewrite length_map.
  destruct (given (fo_search options)) as [search|].
  - rewrite (List.filter_ext _ (fun f =>
        contains_ci (f_name f) search ||
        match given (f_description f) with
        | Some text => contains_ci text search
        | None => false
        end)); [reflexivity|].
    intros f. apply matchesSearch_contains.
  - rewrite List.filter_true. reflexivity.
Qed.

Lemma filterMutations_swapRoots s options d :
  mutations (filterMutations s options d) = queries (filterQueries s options (swapRoots d)) /\
  m_total (filterMutations s options d) = q_total (filterQueries s options (swapRoots d)) /\
  m_success (filterMutations s options d) = q_success (filterQueries s options (swapRoots d)) /\
  m_endpoint (filterMutations s options d) = q_endpoint (filterQueries s options (swapRoots d)) /\
  m_search_term (filterMutations s options d)
    = q_search_term (filterQueries s options (swapRoots d)).
Proof.
  unfold filterMutations, filterQueries, swapRoots. simpl.
  destruct (mutationType (__schema d)) as [m|]; [|simpl; auto].
  destruct (findType (root_name m) (types (__schema d))) as [t|]; [|simpl; auto].
  destruct (fields t) as [fs|]; simpl; auto.
Qed.

(** With the root's field list at hand, [filter_queries] returns the
    formatted fields, in declaration order, whose name or description
    contains the search string irrespective of case; without a search
    string (absent or empty) it returns every field.  [total] counts them
    and [search_term] echoes the option. *)
Theorem filter_queries_selects_by_search s options d fs :
  rootFields (queryType (__schema d)) d = Some fs ->
  queries (filterQueries s options d)
    = map (formatOperation (fo_detailed options)) (List.filter (fieldSelected options) fs) /\
  q_total (filterQueries s options d) = length (queries (filterQueries s options d)) /\
  q_search_term (filterQueries s options d) = fo_search options /\
  (given (fo_search options) = None ->
   queries (filterQueries s options d) = map (formatOperation (fo_detailed options)) fs) /\
  (forall search f, given (fo_search options) = Some search ->
     (In f (List.filter (fieldSelected options) fs) <->
      In f fs /\
      (contains_ci (f_name f) search = true \/
       exists text, given (f_description f) = Some text /\ contains_ci text search = true))).
Proof.
  intros Hfs. rewrite (filterQueries_with_fields _ _ _ _ Hfs). simpl.
  split; [reflexivity|]. split; [rewrite length_map; reflexivity|].
  split; [reflexivity|]. split.
  - intros Hnone. f_equal. unfold fieldSelected. rewrite Hnone.
    apply List.filter_true.
  - intros search f Hsearch. rewrite List.filter_In. unfold fieldSelected. rewrite Hsearch.
    rewrite orb_true_iff. split; intros [Hin Hsel]; (split; [exact Hin|]).
    + destruct Hsel as [Hn|Hd]; [left; exact Hn|].
      destruct (given (f_description f)) as [text|]; [|discriminate]. right. eauto.
    + destruct Hsel as [Hn|(text & Hg & Hd)]; [left; exact Hn|].
      right. rewrite Hg. exact Hd.
Qed.

(** [filter_mutations] is [filter_queries] with the mutation root in the
    place of the query root: on the schema with the two roots exchanged the
    two methods return the same list, total, endpoint and search term. *)
Theorem filter_mutations_mirrors_filter_queries s options d :
  mutations (filterMutations s options d) = queries (filterQueries s options (swapRoots d)) /\
  m_total (filterMutations s options d) = q_total (filterQueries s options (swapRoots d)) /\
  m_success (filterMutations s options d) = q_success (filterQueries s options (swapRoots d)) /\
  m_endpoint (filterMutations s options d) = q_endpoint (filterQueries s options (swapRoots d)) /\
  m_search_term (filterMutations s options d)
    = q_search_term (filterQueries s options (swapRoots d)).
Proof.
  unfold filterMutations, filterQueries, swapRoots. simpl.
  destruct (mutationType (__schema d)) as [root|]; [|repeat split].
  destruct (findType (root_name root) (types (__schema d))) as [t|]; [|repeat split].
  destruct (fields t) as [fs|]; repeat split.
Qed.

Lemma filterQueries_detailed_flag s options d :
  queries (filterQueries s (withDetailed false options) d)
    = map withoutDetail (queries (filterQueries s (withDetailed true options) d)) /\
  q_total (filterQueries s (withDetailed false options) d)
    = q_total (filterQueries s (withDetailed true options) d).
Proof.
  unfold filterQueries. simpl.
  destruct (queryType (__schema d)) as [q|]; [|simpl; auto].
  destruct (findType (root_name q) (types (__schema d))) as [t|]; [|simpl; auto].
  destruct (fields t) as [fs|]; [|simpl; auto]. simpl.
  rewrite map_map, !length_map. split; reflexivity.
Qed.

(** The [detailed] flag only adds keys: the plain list of any of the three
    filter methods is the detailed list with [arguments] and [return_type]
    (for types: the five facets) taken away, entry by entry, and the totals
    are the same. *)
Theorem detailed_flag_only_adds_keys s options toptions d :
  (queries (filterQueries s (withDetailed false options) d)
     = map withoutDetail (queries (filterQueries s (withDetailed true options) d)) /\
   q_total (filterQueries s (withDetailed false options) d)
     = q_total (filterQueries s (withDetailed true options) d)) /\
  (mutations (filterMutations s (withDetailed false options) d)
     = map withoutDetail (mutations (filterMutations s (withDetailed true options) d)) /\
   m_total (filterMutations s (withDetailed false options) d)
     = m_total (filterMutations s (withDetailed true options) d)) /\
  (ts_types (filterTypes s (typesWithDetailed false toptions) d)
     = map typeWithoutDetail (ts_types (filterTypes s (typesWithDetailed true toptions) d)) /\
   ts_total (filterTypes s (typesWithDetailed false toptions) d)
     = ts_total (filterTypes s (typesWithDetailed true toptions) d)).
Proof.
  split; [apply filterQueries_detailed_flag|]. split.
  - destruct (filterMutations_swapRoots s (withDetailed false options) d)
      as (-> & -> & _).
    destruct (filterMutations_swapRoots s (withDetailed true options) d)
      as (-> & -> & _).
    apply filterQueries_detailed_flag.
  - change (ts_total (filterTypes s (typesWithDetailed false toptions) d))
      with (length (ts_types (filterTypes s (typesWithDetailed false toptions) d))).
    change (ts_total (filterTypes s (typesWithDetailed true toptions) d))
      with (length (ts_types (filterTypes s (typesWithDetailed true toptions) d))).
    rewrite !filterTypes_selected. simpl. rewrite map_map, !length_map.
    split; reflexivity.
Qed.

End FormatterExtras.

Section DetailsExtras.
Context `{Platform}.

(** A [get_field_details] result is about the field asked for, and it is
    one of the entries that the detailed, unfiltered [filter_queries] (for
    operation type [mutation]: [filter_mutations]) lists: same name,
    description, deprecation, arguments and return type. *)
Theorem field_details_are_an_entry_of_the_listing s options d r :
  getFieldDetails s options d = Return r ->
  fd_name (field r) = field_name options /\
  fd_operation_type r = operationTypeOf options /\
  (operationTypeOf options = "mutation" ->
   In (asOperationItem (field r))
      (mutations (filterMutations s
         {| fo_endpoint := fdo_endpoint options; fo_search := None; fo_detailed := true |} d))) /\
  (operationTypeOf options <> "mutation" ->
   In (asOperationItem (field r))
      (queries (filterQueries s
         {| fo_endpoint := fdo_endpoint options; fo_search := None; fo_detailed := true |} d))).
Proof.
  rewrite getFieldDetails_cases.
  destruct (rootTypeOf options d) as [root|] eqn:Hroot; [|discriminate].
  destruct (rootFields (Some root) d) as [fs|] eqn:Hfs; [|discriminate].
  destruct (find _ fs) as [f|] eqn:Hfind; [|discriminate].
  intros E. inversion E; subst; clear E. simpl.
  apply List.find_some in Hfind as [Hin Hname]. apply String.eqb_eq in Hname.
  split; [exact Hname|]. split; [reflexivity|].
  assert (Hitem : In {| op_name := f_name f; op_description := f_description f;
                        op_deprecated := isDeprecated f;
                        op_deprecation_reason := deprecationReason f;
                        op_detail := Some (formatArguments (args f), formatType (f_type f)) |}
                     (map (formatOperation true) fs)).
  { apply (in_map (formatOperation true)) in Hin. exact Hin. }
  unfold rootTypeOf in Hroot. split; intros Hop.
  - apply String.eqb_eq in Hop. rewrite Hop in Hroot.
    destruct (filterMutations_swapRoots s
      {| fo_endpoint := fdo_endpoint options; fo_search := None; fo_detailed := true |} d)
      as (-> & _).
    rewrite (filterQueries_with_fields _ _ (swapRoots d) fs).
    + simpl. unfold fieldSelected. simpl. rewrite List.filter_true. exact Hitem.
    + unfold swapRoots, rootFields. simpl. rewrite Hroot. exact Hfs.
  - apply String.eqb_neq in Hop. rewrite Hop in Hroot.
    rewrite (filterQueries_with_fields _ _ d fs).
    + simpl. unfold fieldSelected. simpl. rewrite List.filter_true. exact Hitem.
    + rewrite Hroot. exact Hfs.
Qed.

(** Only the exact string [mutation] selects the mutation root.  With any
    other operation type (absent, empty, [subscription], a misspelling) the
    field is looked up in the query root: the call succeeds exactly when
    the query root has a field of that name. *)
Theorem other_operation_types_read_the_query_root s options d :
  operationTypeOf options <> "mutation" ->
  (exists r, getFieldDetails s options d = Return r) <->
  (exists fs f,
     rootFields (queryType (__schema d)) d = Some fs /\
     In f fs /\ f_name f = field_name options).
Proof.
  intros Hop. rewrite getFieldDetails_cases. unfold rootTypeOf.
  apply String.eqb_neq in Hop. rewrite Hop.
  destruct (queryType (__schema d)) as [root|] eqn:Hroot.
  - destruct (rootFields (Some root) d) as [fs|] eqn:Hfs.
    + destruct (find (fun f => String.eqb (f_name f) (field_name options)) fs)
        as [f|] eqn:Hfind.
      * split; [|eauto]. intros _. exists fs, f.
        apply List.find_some in Hfind as [Hin Hname]. apply String.eqb_eq in Hname. auto.
      * split; [intros [r Hr]; discriminate|].
        intros (fs' & f & Hfs' & Hin & Hname). inversion Hfs'; subst fs'.
        pose proof (List.find_none _ _ Hfind f Hin) as Hno. simpl in Hno.
        apply String.eqb_neq in Hno. contradiction.
    + split; [intros [r Hr]; discriminate | intros (fs & f & Hfs' & _); discriminate].
  - split; [intros [r Hr]; discriminate | intros (fs & f & Hfs' & _); discriminate].
Qed.

Lemma formatTypeObject_unformat t :
  wellFormed t = true -> unformat (formatTypeObject t) = t.
Proof.
  induction t as [kind name description | kind name description inner IH]
    using TypeRef_induction; simpl.
  - destruct (String.eqb kind "NON_NULL"); simpl.
    + destruct name, description; discriminate.
    + destruct (String.eqb kind "LIST"); simpl; [|reflexivity].
      destruct name, description; discriminate.
  - destruct (String.eqb kind "NON_NULL") eqn:En; simpl.
    + apply String.eqb_eq in En. subst kind.
      destruct name; [discriminate|]. destruct description; [discriminate|].
      intros Hwf. rewrite (IH Hwf). reflexivity.
    + destruct (String.eqb kind "LIST") eqn:El; simpl; [|discriminate].
      apply String.eqb_eq in El. subst kind.
      destruct name; [discriminate|]. destruct description; [discriminate|].
      intros Hwf. rewrite (IH Hwf). reflexivity.
Qed.

(** On type references as introspection produces them (wrappers carry an
    inner type and no name, named types carry no inner type) [formatType]
    loses nothing: the reference can be rebuilt from the result, so two
    different references never format alike. *)
Theorem formatType_is_lossless t1 t2 :
  wellFormed t1 = true -> wellFormed t2 = true ->
  (exists f, formatType (Some t1) = Some f /\ unformat f = t1) /\
  (formatType (Some t1) = formatType (Some t2) -> t1 = t2).
Proof.
  intros Hwf1 Hwf2. split.
  - exists (formatTypeObject t1). split; [reflexivity|].
    apply formatTypeObject_unformat. exact Hwf1.
  - simpl. intros E. inversion E as [E'].
    rewrite <- (formatTypeObject_unformat t1 Hwf1), <- (formatTypeObject_unformat t2 Hwf2).
    rewrite E'. reflexivity.
Qed.

(** [get_type_details] fails exactly when no declared type has the
    requested name; the message is [Type "<name>" not found] and so
    contains the name, and nothing else makes the method fail. *)
Theorem type_details_fail_iff_undeclared s options d :
  ((exists message, getTypeDetails s options d = Throw message) <->
   forall t, In t (types (__schema d)) -> t_name t <> type_name options) /\
  (forall message, getTypeDetails s options d = Throw message ->
     message = "Type " ++ dquote ++ type_name options ++ dquote ++ " not found" /\
     includes message (type_name options) = true).
Proof.
  unfold getTypeDetails, findType.
  destruct (find (fun t => String.eqb (t_name t) (type_name options))
                 (types (__schema d))) as [t|] eqn:Hfind.
  - split.
    + split; [intros [m Hm]; discriminate|].
      intros Hall. apply List.find_some in Hfind as [Hin Hname].
      apply String.eqb_eq in Hname. destruct (Hall t Hin Hname).
    + intros m Hm. discriminate.
  - split.
    + split; [|eauto]. intros _ t Hin.
      pose proof (List.find_none _ _ Hfind t Hin) as Hno. simpl in Hno.
      apply String.eqb_neq. exact Hno.
    + intros m Hm. inversion Hm; subst. split; [reflexivity|].
      change ("Type " ++ dquote ++ type_name options ++ dquote ++ " not found")
        with (("Type " ++ dquote) ++ type_name options ++ (dquote ++ " not found")).
      apply includes_middle.
Qed.

(** [get_type_details] does not hide the introspection-internal types:
    a declared type whose name begins with two underscores can be looked
    up by name, although no [filter_types] call ever lists it. *)
Theorem internal_types_are_found_but_never_listed s endpoint d t :
  In t (types (__schema d)) ->
  startsWith (t_name t) "__" = true ->
  (exists r,
     getTypeDetails s {| tdo_endpoint := endpoint; type_name := t_name t |} d = Return r /\
     tdt_name (tdr_type r) = t_name t) /\
  (forall options,
     ~ In (t_name t) (map ti_name (ts_types (filterTypes s options d)))).
Proof.
  intros Hin Hinternal. split.
  - unfold getTypeDetails, findType. simpl.
    destruct (find_first_match (fun t' => String.eqb (t_name t') (t_name t))
                (types (__schema d)) t Hin (String.eqb_refl _)) as (t' & Hfind & _ & Hname).
    rewrite Hfind. eexists. split; [reflexivity|]. simpl.
    apply String.eqb_eq. exact Hname.
  - intros options Hlisted. rewrite filterTypes_selected, map_map in Hlisted.
    apply in_map_iff in Hlisted as (t' & Hname & Hsel). simpl in Hname.
    apply List.filter_In in Hsel as [_ Hsel].
    apply selected_true in Hsel as [Hnot _].
    rewrite Hname in Hnot. congruence.
Qed.

(** What [get_type_details] returns for a name is what the detailed
    [filter_types] listing shows for the first declared type of that name:
    the same name, kind, description, fields, enum values and input fields,
    and the same interface and possible-type names, here paired with their
    kinds. *)
Theorem type_details_agree_with_detailed_listing s options d r :
  getTypeDetails s options d = Return r ->
  exists t,
    In t (types (__schema d)) /\ t_name t = type_name options /\
    ti_name (formatTypeItem true t) = tdt_name (tdr_type r) /\
    ti_kind (formatTypeItem true t) = tdt_kind (tdr_type r) /\
    ti_description (formatTypeItem true t) = tdt_description (tdr_type r) /\
    ti_detail (formatTypeItem true t) =
      Some {| td_fields := tdt_fields (tdr_type r);
              enum_values := tdt_enum_values (tdr_type r);
              input_fields := tdt_input_fields (tdr_type r);
              td_interfaces := map nk_name <$> tdt_interfaces (tdr_type r);
              possible_types := map nk_name <$> tdt_possible_types (tdr_type r) |}.
Proof.
  unfold getTypeDetails, findType.
  destruct (find (fun t => String.eqb (t_name t) (type_name options))
                 (types (__schema d))) as [t|] eqn:Hfind; [|discriminate].
  intros E. inversion E; subst; clear E. simpl.
  apply List.find_some in Hfind as [Hin Hname]. apply String.eqb_eq in Hname.
  exists t. repeat (split; [first [assumption | reflexivity]|]).
  f_equal. f_equal.
  - destruct (interfaces t) as [l|]; simpl; [|reflexivity]. rewrite map_map. reflexivity.
  - destruct (possibleTypes t) as [l|]; simpl; [|reflexivity]. rewrite map_map. reflexivity.
Qed.

End DetailsExtras.

Section SchemaExtras.
Context `{Platform}.

(** [get_schema] fails exactly when graphql-js cannot build or print the
    schema, with [Failed to build schema: ] and the library's message (or
    [Unknown error]); a root operation type that is absent, undeclared or
    without fields is no failure: its list is empty. *)
Theorem schema_fails_only_when_it_cannot_be_built s options printed d :
  (forall message,
     getSchema s options printed d = Throw message <->
     exists error, printed = inl error /\
       message = "Failed to build schema: " ++
                 match error with JsError m => m | NonError => "Unknown error" end) /\
  (forall text, printed = inr text ->
     exists r,
       getSchema s options printed d = Return r /\
       sr_success r = true /\ sdl (schema r) = text /\ introspection (schema r) = d /\
       (rootFields (queryType (__schema d)) d = None -> sp_queries (schema r) = []) /\
       (rootFields (mutationType (__schema d)) d = None -> sp_mutations (schema r) = []) /\
       (rootFields (subscriptionType (__schema d)) d = None -> subscriptions (schema r) = [])).
Proof.
  assert (Hempty : forall root,
    rootFields root d = None ->
    formatFields (root_name <$> root) (types (__schema d)) = []).
  { intros root. unfold rootFields, formatFields, given.
    destruct root as [r|]; simpl; [|reflexivity].
    destruct (String.eqb (root_name r) EmptyString); [reflexivity|].
    destruct (findType (root_name r) (types (__schema d))) as [t|]; [|reflexivity].
    intros ->. reflexivity. }
  unfold getSchema. split.
  - intros message. destruct printed as [error|text].
    + split.
      * intros E. inversion E. eauto.
      * intros (error' & E & ->). inversion E; subst. reflexivity.
    + split; [discriminate | intros (error & E & _); discriminate].
  - intros text ->. eexists. split; [reflexivity|]. simpl.
    repeat split; auto.
Qed.

(** The flat type list of [get_schema] is the list that [filter_types]
    returns when it is given no kind, no search string and no [detailed]
    flag. *)
Theorem schema_types_are_the_unfiltered_listing s options printed d r toptions :
  getSchema s options printed d = Return r ->
  given (to_kind toptions) = None ->
  given (to_search toptions) = None ->
  to_detailed toptions = false ->
  sp_types (schema r) = ts_types (filterTypes s toptions d).
Proof.
  unfold getSchema. destruct printed as [error|text]; [discriminate|].
  intros E Hkind Hsearch Hdetailed. inversion E; subst; clear E. simpl.
  unfold filterTypes, formatTypes. simpl. rewrite Hkind, Hsearch, Hdetailed. reflexivity.
Qed.

(** As long as the query root's name is not the empty string, the
    [queries] of [get_schema] are the entries of the detailed, unfiltered
    [filter_queries], one for one (for the empty name [get_schema] gives an
    empty list without looking the type up). *)
Theorem schema_queries_are_the_detailed_listing s options printed d r :
  getSchema s options printed d = Return r ->
  (forall root, queryType (__schema d) = Some root -> root_name root <> EmptyString) ->
  map asOperationItem (sp_queries (schema r)) =
    queries (filterQueries s
      {| fo_endpoint := bo_endpoint options; fo_search := None; fo_detailed := true |} d).
Proof.
  unfold getSchema. destruct printed as [error|text]; [discriminate|].
  intros E Hname. inversion E; subst; clear E. simpl.
  unfold formatFields, filterQueries. simpl.
  destruct (queryType (__schema d)) as [root|]; simpl; [|reflexivity].
  specialize (Hname root eq_refl). apply String.eqb_neq in Hname. rewrite Hname.
  destruct (findType (root_name root) (types (__schema d))) as [t|]; [|reflexivity].
  destruct (fields t) as [fs|]; [|reflexivity]. simpl.
  rewrite map_map. reflexivity.
Qed.

(** The endpoint a result echoes is the explicit one whenever one is passed
    (also the empty string: the fallback is [??], not [||]); otherwise the
    [BASE_URL] of the environment at start-up unless that is unset or
    empty; otherwise [http://localhost:5555/graphql]. *)
Theorem endpoint_resolution env options toptions d :
  let resolved (explicit : option string) :=
    match explicit with
    | Some e => e
    | None =>
        match given (env !! "BASE_URL") with
        | Some base => base
        | None => "http://localhost:5555/graphql"
        end
    end in
  q_endpoint (filterQueries (new_Service env) options d) = resolved (fo_endpoint options) /\
  m_endpoint (filterMutations (new_Service env) options d) = resolved (fo_endpoint options) /\
  ts_endpoint (filterTypes (new_Service env) toptions d) = resolved (to_endpoint toptions).
Proof.
  assert (Hres : forall explicit,
    resolveEndpoint (new_Service env) explicit =
      match explicit with
      | Some e => e
      | None =>
          match given (env !! "BASE_URL") with
          | Some base => base
          | None => "http://localhost:5555/graphql"
          end
      end).
  { intros [e|]; [reflexivity|]. unfold resolveEndpoint, new_Service, js_or, given. simpl.
    destruct (env !! "BASE_URL") as [b|]; [|reflexivity].
    destruct (String.eqb b EmptyString); reflexivity. }
  simpl. rewrite <- !Hres. split; [|split].
  - unfold filterQueries.
    destruct (queryType (__schema d)) as [q|]; [|reflexivity].
    destruct (findType (root_name q) (types (__schema d))) as [t|]; [|reflexivity].
    destruct (fields t); reflexivity.
  - unfold filterMutations.
    destruct (mutationType (__schema d)) as [q|]; [|reflexivity].
    destruct (findType (root_name q) (types (__schema d))) as [t|]; [|reflexivity].
    destruct (fields t); reflexivity.
  - reflexivity.
Qed.

End SchemaExtras.

(** * Properties of the tool boundary *)

Section ToolBoundaryExtras.
Variable stringify_indented : JSON -> string.
Variable run : Method -> Thrown + JSON.

Lemma dispatch_listed name : is_Some (dispatch name) <-> In name listedTools.
Proof.
  unfold dispatch, listedTools. simpl.
  destruct (String.eqb name "get_graphql_schema") eqn:E1;
    [apply String.eqb_eq in E1; split; eauto|].
  destruct (String.eqb name "filter_queries") eqn:E2;
    [apply String.eqb_eq in E2; split; eauto|].
  destruct (String.eqb name "filter_mutations") eqn:E3;
    [apply String.eqb_eq in E3; split; eauto|].
  destruct (String.eqb name "filter_types") eqn:E4;
    [apply String.eqb_eq in E4; split; eauto 6|].
  destruct (String.eqb name "get_type_details") eqn:E5;
    [apply String.eqb_eq in E5; split; eauto 7|].
  destruct (String.eqb name "get_field_details") eqn:E6;
    [apply String.eqb_eq in E6; split; eauto 8|].
  apply String.eqb_neq in E1, E2, E3, E4, E5, E6.
  split; [intros [m Hm]; discriminate|].
  intros [?|[?|[?|[?|[?|[?|[]]]]]]]; congruence.
Qed.

(** The tools the server announces are the tools it serves: a name is in
    the [ListTools] answer exactly when the [CallTool] switch has a case
    for it, no name is announced twice, and the six cases reach six
    different methods. *)
Theorem announced_tools_are_the_served_tools :
  (forall name, In name listedTools <-> is_Some (dispatch name)) /\
  List.NoDup listedTools /\
  map dispatch listedTools =
    [ Some GetSchema; Some FilterQueries; Some FilterMutations;
      Some FilterTypes; Some GetTypeDetails; Some GetFieldDetails ].
Proof.
  split; [intros name; symmetry; apply dispatch_listed|].
  split; [|reflexivity].
  unfold listedTools.
  repeat (apply List.NoDup_cons; [simpl; intuition discriminate|]).
  apply List.NoDup_nil.
Qed.

(** Nothing thrown crosses the tool boundary.  A name that is not announced
    is answered with one text item holding [{error: "Unknown tool: <name>",
    success: false}]; an error thrown by the service method is answered
    with its message in the same envelope ([Unknown error] when the thrown
    value is no [Error]); a returned object is answered serialised. *)
Theorem failures_become_the_failure_envelope name :
  (~ In name listedTools ->
   callTool stringify_indented run name =
     [ {| content_type := "text";
          text := stringify_indented
                    (JObject [ ("error", JString ("Unknown tool: " ++ name));
                               ("success", JBool false) ]) |} ]) /\
  (forall m message, dispatch name = Some m -> run m = inl (JsError message) ->
   callTool stringify_indented run name =
     [ {| content_type := "text";
          text := stringify_indented
                    (JObject [ ("error", JString message); ("success", JBool false) ]) |} ]) /\
  (forall m, dispatch name = Some m -> run m = inl NonError ->
   callTool stringify_indented run name =
     [ {| content_type := "text";
          text := stringify_indented
                    (JObject [ ("error", JString "Unknown error");
                               ("success", JBool false) ]) |} ]) /\
  (forall m result, dispatch name = Some m -> run m = inr result ->
   callTool stringify_indented run name =
     [ {| content_type := "text"; text := stringify_indented result |} ]).
Proof.
  unfold callTool. split; [|split; [|split]].
  - intros Hnot. destruct (dispatch name) as [m|] eqn:Hd; [|reflexivity].
    destruct Hnot. apply dispatch_listed. rewrite Hd. eauto.
  - intros m message -> ->. reflexivity.
  - intros m -> ->. reflexivity.
  - intros m result -> ->. reflexivity.
Qed.

End ToolBoundaryExtras.

(** ** The further properties on concrete inputs *)
Section ExtraExamples.
Import Samples MoreSamples.

Lemma stale_entry_goes_to_network_witness :
  exists request,
    sent (snd (fetchIntrospection (unreachable 302001) endpoint alice
                 (at_time 302000 after_first)))
      = request :: sent (at_time 302000 after_first) /\
    url request = endpoint /\ method request = "POST" /\
    body request = JSON_stringify (JObject [("query", JString getIntrospectionQuery)]).
Proof.
  apply (stale_entry_goes_to_network (unreachable 302001) endpoint alice
           (at_time 302000 after_first)).
  intros entry Hentry. vm_compute in Hentry. inversion Hentry; subst.
  vm_compute. discriminate.
Defined.

(** A 200 answer with neither [errors] nor [data]: [undefined] is returned
    and cached, and served again from the cache. *)
Lemma fetched_payload_is_stored_witness :
  fst (fetchIntrospection (answering (http 200 "OK" bare_body) 2000) endpoint anonymous start)
    = Fetched (lookup_member "data" [("extensions", JObject [])]) /\
  cache (svc (snd (fetchIntrospection (answering (http 200 "OK" bare_body) 2000)
                     endpoint anonymous start)))
    = <[ getCacheKey endpoint anonymous :=
           {| data := lookup_member "data" [("extensions", JObject [])];
              timestamp := arrival (answering (http 200 "OK" bare_body) 2000
                                      (buildRequest endpoint anonymous)) |} ]>
        (cache (svc start)).
Proof.
  apply (fetched_payload_is_stored (answering (http 200 "OK" bare_body) 2000)
           endpoint anonymous start (http 200 "OK" bare_body)).
  - reflexivity.
  - reflexivity.
  - simpl. lia.
  - reflexivity.
  - reflexivity.
Defined.

Example undefined_is_served_from_cache :
  let w1 := snd (fetchIntrospection (answering (http 200 "OK" bare_body) 2000)
                   endpoint anonymous start) in
  fetchIntrospection (unreachable 0) endpoint anonymous (at_time 3000 w1)
  = (Fetched None,
     console_info ("🚀🚀🚀 ====== endpoint: " ++ endpoint) (at_time 3000 w1)).
Proof. vm_compute. reflexivity. Qed.

Lemma other_keys_untouched_witness :
  cache (svc (snd (fetchIntrospection (answering (http 200 "OK" good_body) 5000)
                     endpoint anonymous after_first)))
    !! getCacheKey endpoint alice
  = cache (svc after_first) !! getCacheKey endpoint alice.
Proof.
  apply (other_keys_untouched (answering (http 200 "OK" good_body) 5000)
           endpoint anonymous after_first (getCacheKey endpoint alice)).
  vm_compute. discriminate.
Defined.

Lemma non_2xx_is_reported_with_status_witness :
  fst (fetchIntrospection (answering (http 503 "Service Unavailable" JNull) 1500)
         endpoint alice start)
  = Failed (TransportError 503 "Service Unavailable")
      ("Failed to fetch GraphQL schema: HTTP " ++ pretty 503 ++ ": " ++ "Service Unavailable").
Proof.
  apply (non_2xx_is_reported_with_status
           (answering (http 503 "Service Unavailable" JNull) 1500) endpoint alice start
           (http 503 "Service Unavailable" JNull)).
  - reflexivity.
  - reflexivity.
  - right. simpl. lia.
Defined.

Lemma lower_level_fault_is_rewrapped_witness :
  fst (fetchIntrospection (unreachable 1500) endpoint alice start)
  = Failed (FetchFailure (JsError "connect ECONNREFUSED 127.0.0.1:4000"))
      ("Failed to fetch GraphQL schema: " ++ "connect ECONNREFUSED 127.0.0.1:4000").
Proof.
  apply (lower_level_fault_is_rewrapped (unreachable 1500) endpoint alice start
           (JsError "connect ECONNREFUSED 127.0.0.1:4000")).
  - reflexivity.
  - left. reflexivity.
Defined.

Lemma every_failure_has_the_fetch_prefix_witness :
  String.prefix "Failed to fetch GraphQL schema: "
    "Failed to fetch GraphQL schema: GraphQL errors: []" = true.
Proof.
  apply (every_failure_has_the_fetch_prefix
           (answering (http 200 "OK" empty_errors_body) 2000) endpoint anonymous start
           (GraphQLError (JArray []))
           "Failed to fetch GraphQL schema: GraphQL errors: []"
           (snd (fetchIntrospection (answering (http 200 "OK" empty_errors_body) 2000)
                   endpoint anonymous start))).
  vm_compute. reflexivity.
Defined.

Lemma credentials_of_different_kinds_collide_witness :
  getCacheKey endpoint alice = getCacheKey endpoint token_alice.
Proof.
  apply (credentials_of_different_kinds_collide endpoint alice token_alice "alice").
  - reflexivity.
  - reflexivity.
  - left. reflexivity.
Defined.

(** The bearer of the token [alice] is given what the user [alice]
    fetched with a password. *)
Example token_reads_password_users_entry :
  fst (fetchIntrospection (unreachable 0) endpoint token_alice (at_time 3000 after_first))
  = Fetched (Some document).
Proof. vm_compute. reflexivity. Qed.

Lemma filter_queries_selects_by_search_witness :
  map op_name (queries (filterQueries service (searching "USER" false) query_only))
  = ["user"].
Proof.
  destruct (filter_queries_selects_by_search service (searching "USER" false) query_only
              [user_field; scores_field] eq_refl) as (Hqueries & _).
  rewrite Hqueries. vm_compute. reflexivity.
Defined.

Example mutations_of_both_roots :
  map op_name (mutations (filterMutations service (searching "user" true) both_roots))
  = ["createUser"] /\
  map op_name (queries (filterQueries service (searching "user" true) (swapRoots both_roots)))
  = ["createUser"].
Proof. vm_compute. split; reflexivity. Qed.

Lemma field_details_are_an_entry_of_the_listing_witness :
  exists r,
    getFieldDetails service (query_field "scores") query_only = Return r /\
    fd_name (field r) = "scores" /\
    In (asOperationItem (field r))
       (queries (filterQueries service
          {| fo_endpoint := None; fo_search := None; fo_detailed := true |} query_only)).
Proof.
  eexists. split; [reflexivity|].
  destruct (field_details_are_an_entry_of_the_listing
              service (query_field "scores") query_only _ eq_refl)
    as (Hname & _ & _ & Hquery).
  split; [exact Hname|]. apply Hquery. vm_compute. discriminate.
Defined.

Lemma other_operation_types_read_the_query_root_witness :
  (exists r, getFieldDetails service (subscription_field "user") query_only = Return r) <->
  (exists fs f,
     rootFields (queryType (__schema query_only)) query_only = Some fs /\
     In f fs /\ f_name f = field_name (subscription_field "user")).
Proof.
  apply (other_operation_types_read_the_query_root
           service (subscription_field "user") query_only).
  vm_compute. discriminate.
Defined.

(** [operation_type: subscription] is answered from the query root. *)
Example subscription_is_read_as_query :
  fd_operation_type <$>
    (match getFieldDetails service (subscription_field "user") query_only with
     | Return r => Some r
     | Throw _ => None
     end) = Some "subscription".
Proof. vm_compute. reflexivity. Qed.

Lemma formatType_is_lossless_witness :
  (exists f, formatType (Some non_null_list_of_int) = Some f /\
             unformat f = non_null_list_of_int) /\
  (formatType (Some non_null_list_of_int) = formatType (Some (named "SCALAR" "Int")) ->
   non_null_list_of_int = named "SCALAR" "Int").
Proof.
  apply (formatType_is_lossless non_null_list_of_int (named "SCALAR" "Int")).
  - reflexivity.
  - reflexivity.
Defined.

(** A wrapper that carries a name is not rebuilt: the name is dropped. *)
Example named_wrapper_loses_its_name :
  unformat (formatTypeObject (mkTypeRef "LIST" (Some "Odd") None None))
  = mkTypeRef "LIST" None None None.
Proof. reflexivity. Qed.

Lemma internal_types_are_found_but_never_listed_witness :
  (exists r,
     getTypeDetails service (type_named "__Schema") query_only = Return r /\
     tdt_name (tdr_type r) = "__Schema") /\
  ~ In "__Schema" (map ti_name (ts_types (filterTypes service all_types query_only))).
Proof.
  destruct (internal_types_are_found_but_never_listed service None query_only
              (plain_type "OBJECT" "__Schema" None)) as [Hfound Hhidden].
  - simpl. tauto.
  - reflexivity.
  - split; [exact Hfound | apply Hhidden].
Defined.

Lemma type_details_agree_with_detailed_listing_witness :
  exists r,
    getTypeDetails service (type_named "Query") query_only = Return r /\
    exists t,
      In t (types (__schema query_only)) /\ t_name t = "Query" /\
      ti_kind (formatTypeItem true t) = tdt_kind (tdr_type r).
Proof.
  eexists. split; [reflexivity|].
  destruct (type_details_agree_with_detailed_listing
              service (type_named "Query") query_only _ eq_refl)
    as (t & Hin & Hname & _ & Hkind & _).
  exists t. auto.
Defined.

Example unknown_type_is_reported :
  getTypeDetails service (type_named "Order") query_only
  = Throw ("Type " ++ dquote ++ "Order" ++ dquote ++ " not found").
Proof. vm_compute. reflexivity. Qed.

Lemma schema_types_are_the_unfiltered_listing_witness :
  exists r,
    getSchema service defaults printed_ok query_only = Return r /\
    sp_types (schema r) = ts_types (filterTypes service all_types query_only).
Proof.
  eexists. split; [reflexivity|].
  apply (schema_types_are_the_unfiltered_listing
           service defaults printed_ok query_only _ all_types); reflexivity.
Defined.

Lemma schema_queries_are_the_detailed_listing_witness :
  exists r,
    getSchema service defaults printed_ok query_only = Return r /\
    map asOperationItem (sp_queries (schema r)) =
      queries (filterQueries service
        {| fo_endpoint := None; fo_search := None; fo_detailed := true |} query_only).
Proof.
  eexists. split; [reflexivity|].
  apply (schema_queries_are_the_detailed_listing
           service defaults printed_ok query_only _ eq_refl).
  intros root Hroot. inversion Hroot; subst. simpl. discriminate.
Defined.

(** A root whose name is the empty string: [get_schema] lists nothing,
    [filter_queries] lists the fields of the type called [""]. *)
Example empty_root_name_differs :
  let nameless :=
    {| __schema := {| queryType := Some {| root_name := EmptyString |};
                      mutationType := None; subscriptionType := None;
                      types := [ {| t_kind := "OBJECT"; t_name := EmptyString;
                                    t_description := None;
                                    fields := Some [scores_field];
                                    inputFields := None; interfaces := None;
                                    enumValues := None; possibleTypes := None |} ] |} |} in
  formatFields (root_name <$> queryType (__schema nameless)) (types (__schema nameless)) = [] /\
  map op_name (queries (filterQueries service no_filter nameless)) = ["scores"].
Proof. vm_compute. split; reflexivity. Qed.

Example schema_build_failure :
  getSchema service defaults (inl (JsError "Invalid or incomplete introspection result."))
    query_only
  = Throw "Failed to build schema: Invalid or incomplete introspection result.".
Proof. reflexivity. Qed.

Example unknown_tool :
  callTool Node.stringify (throwing "unused") "drop_schema"
  = [ {| content_type := "text";
         text := Node.stringify (JObject [ ("error", JString "Unknown tool: drop_schema");
                                           ("success", JBool false) ]) |} ].
Proof. reflexivity. Qed.

End ExtraExamples.
